(** * Products API (Express): a shallow embedding of [app.js]

    The development follows the request handlers of [app.js]: the
    in-memory store ([products], [nextId]), the two lookup helpers and
    the handlers for [/api/products] and [/api/products/:id].

    Conventions of the embedding.
    - A JavaScript string is a [string]; an [ascii] stands for the code
      unit of the same number (the range U+0000..U+00FF).
    - Integers ([id], [nextId], HTTP statuses, the result of [parseInt])
      are [Z]; [NaN] is [None].  JavaScript numbers hold integers exactly
      up to 2^53, a range the counter (which starts at 4 and grows by one
      per created product) does not leave; beyond it JavaScript rounds and
      the embedding does not.
    - Prices are JSON numbers, carried as exact rationals.
    - A handler is a computation in a state-and-exception monad over the
      store: [throw] keeps whatever the store is at the time of the throw,
      as a JavaScript exception does.
    - Requests are handled one at a time: a handler runs from its first
      statement to its response without another handler in between. *)

From Stdlib Require Import ZArith QArith Ascii String DecimalString DecimalPos.
From stdpp Require Import base option list strings.

Set Default Proof Using "Type".
Open Scope string_scope.
Open Scope Z_scope.

(** ** JavaScript string primitives used by the handlers *)

Module JsString.

Definition code (c : ascii) : Z := Z.of_N (N_of_ascii c).

(** [WhiteSpace] and [LineTerminator] code units below U+0100: TAB, LF,
    VT, FF, CR, SP and NBSP.  These are what [String.prototype.trim] and
    the leading-blank skip of [parseInt] remove. *)
Definition isWhiteSpace (c : ascii) : bool :=
  let n := code c in
  ((9 <=? n) && (n <=? 13)) || (n =? 32) || (n =? 160).

Fixpoint trimStart (s : string) : string :=
  match s with
  | EmptyString => EmptyString
  | String c s' => if isWhiteSpace c then trimStart s' else s
  end.

Fixpoint trimEnd (s : string) : string :=
  match s with
  | EmptyString => EmptyString
  | String c s' =>
      match trimEnd s' with
      | EmptyString => if isWhiteSpace c then EmptyString else String c EmptyString
      | t => String c t
      end
  end.

(** [s.trim()] *)
Definition trim (s : string) : string := trimEnd (trimStart s).

(** Lower-casing of one code unit: A-Z, and the Latin-1 capitals
    U+00C0..U+00DE except the multiplication sign U+00D7. *)
Definition toLowerChar (c : ascii) : ascii :=
  let n := code c in
  if ((65 <=? n) && (n <=? 90))
     || ((192 <=? n) && (n <=? 222) && negb (n =? 215))
  then ascii_of_N (Z.to_N (n + 32))
  else c.

(** [s.toLowerCase()] *)
Fixpoint toLowerCase (s : string) : string :=
  match s with
  | EmptyString => EmptyString
  | String c s' => String (toLowerChar c) (toLowerCase s')
  end.

(** Value of a code unit as a digit of the given radix (10 or 16). *)
Definition digitValue (radix : Z) (c : ascii) : option Z :=
  let n := code c in
  if (48 <=? n) && (n <=? 57) then Some (n - 48)
  else if (radix =? 16) && (97 <=? n) && (n <=? 102) then Some (n - 87)
  else if (radix =? 16) && (65 <=? n) && (n <=? 70) then Some (n - 55)
  else None.

(** Reads the longest prefix of radix digits; [acc] is [None] as long as
    no digit has been read. *)
Fixpoint parseDigits (radix : Z) (s : string) (acc : option Z) : option Z :=
  match s with
  | EmptyString => acc
  | String c s' =>
      match digitValue radix c with
      | Some d => parseDigits radix s' (Some (radix * default 0 acc + d))
      | None => acc
      end
  end.

(** An optional sign in front. *)
Definition stripSign (s : string) : Z * string :=
  match s with
  | String c r =>
      if Ascii.eqb c "-" then (-1, r)
      else if Ascii.eqb c "+" then (1, r)
      else (1, s)
  | EmptyString => (1, s)
  end.

(** A leading [0x] or [0X] selects radix 16 and is removed. *)
Definition stripHexPrefix (s : string) : Z * string :=
  match s with
  | String c (String x r) =>
      if Ascii.eqb c "0" && (Ascii.eqb x "x" || Ascii.eqb x "X")
      then (16, r) else (10, s)
  | _ => (10, s)
  end.

(** [parseInt(s)] with no radix argument: skip leading blanks, an
    optional sign, an optional [0x]/[0X] prefix, then read digits up to
    the first code unit that is not one.  No digit at all gives [NaN]. *)
Definition parseInt (s : string) : option Z :=
  let '(sign, s1) := stripSign (trimStart s) in
  let '(radix, s2) := stripHexPrefix s1 in
  match parseDigits radix s2 None with
  | Some n => Some (sign * n)
  | None => None
  end.

(** A string is truthy when it is not empty. *)
Definition truthy (s : string) : bool :=
  match s with EmptyString => false | _ => true end.

(** Template-literal rendering of an integer. *)
Definition numberToString (n : Z) : string :=
  NilZero.string_of_int (Z.to_int n).

Definition isDecimalDigit (c : ascii) : bool :=
  let n := code c in (48 <=? n) && (n <=? 57).

End JsString.

Import JsString.

(** ** Errors ([utils/errors.js]) *)

Module Errors.

Inductive ErrorKind :=
| BadRequest | Unauthorized | Forbidden | NotFound | Conflict
| ValidationFailed | Internal.

#[global] Instance ErrorKind_eq_dec : EqDecision ErrorKind.
Proof. solve_decision. Defined.

(** Modelled from the spec: the error classes of [utils/errors.js] are
    not among the sources.  An error is distinguished by its kind and
    carries a message and an optional list of details (the violated rules
    of a validation failure). *)
Record AppError := mkError {
  kind : ErrorKind;
  message : string;
  errors : list string
}.

(** Modelled from the spec: [utils/errors.js] is not among the sources.
    Each error kind maps to one fixed HTTP status,
    400/401/403/404/409/422/500. *)
Definition statusCode (k : ErrorKind) : Z :=
  match k with
  | BadRequest => 400
  | Unauthorized => 401
  | Forbidden => 403
  | NotFound => 404
  | Conflict => 409
  | ValidationFailed => 422
  | Internal => 500
  end.

Definition BadRequestError (msg : string) : AppError := mkError BadRequest msg [].
Definition UnauthorizedError (msg : string) : AppError := mkError Unauthorized msg [].
Definition ForbiddenError (msg : string) : AppError := mkError Forbidden msg [].
Definition NotFoundError (msg : string) : AppError := mkError NotFound msg [].
Definition ConflictError (msg : string) : AppError := mkError Conflict msg [].
Definition ValidationError (msg : string) (errs : list string) : AppError :=
  mkError ValidationFailed msg errs.

End Errors.

Import Errors.

(** ** JSON values and responses *)

#[local] Unset Elimination Schemes.
Inductive json :=
| JNull
| JBool (b : bool)
| JNum (q : Q)
| JStr (s : string)
| JArr (items : list json)
| JObj (fields : list (string * json)).
#[local] Set Elimination Schemes.

(** Value of a key of an object; [None] when the value is not an object or
    has no such key. *)
Definition jsonField (key : string) (j : json) : option json :=
  match j with
  | JObj fields => snd <$> List.find (fun kv => String.eqb (fst kv) key) fields
  | _ => None
  end.

(** What [res.status(code).json(body)] sends. *)
Record Response := mkResponse {
  status : Z;
  body : json
}.

(** The success envelope [{success: true, ...payload}]. *)
Definition isSuccessEnvelope (j : json) : bool :=
  match jsonField "success" j with
  | Some (JBool true) => true
  | _ => false
  end.

(** The failure envelope [{success: false, status, message, errors?}]. *)
Definition isFailureEnvelope (j : json) : bool :=
  match jsonField "success" j, jsonField "status" j, jsonField "message" j with
  | Some (JBool false), Some (JStr _), Some (JStr _) => true
  | _, _, _ => false
  end.

(** ** The store: [products] and [nextId] *)

Record Product := mkProduct {
  id : Z;
  name : string;
  description : string;
  price : Q;
  category : string;
  inStock : bool
}.

Record Store := mkStore {
  products : list Product;
  nextId : Z
}.

Definition initialStore : Store :=
  {| products :=
       [ mkProduct 1 "Laptop Pro" "High-performance laptop" (129999 # 100) "Electronics" true;
         mkProduct 2 "Wireless Mouse" "Ergonomic mouse" (2450 # 100) "Accessories" true;
         mkProduct 3 "Coffee Maker" "12-cup automatic brewer" (85 # 1) "Home Goods" false ];
     nextId := 4 |}.

Definition productJson (p : Product) : json :=
  JObj [ ("id", JNum (inject_Z (id p)));
         ("name", JStr (name p));
         ("description", JStr (description p));
         ("price", JNum (price p));
         ("category", JStr (category p));
         ("inStock", JBool (inStock p)) ].

(** Field assignments [p.field = v] on a product object. *)
Definition setName (v : string) (p : Product) : Product :=
  mkProduct (id p) v (description p) (price p) (category p) (inStock p).
Definition setDescription (v : string) (p : Product) : Product :=
  mkProduct (id p) (name p) v (price p) (category p) (inStock p).
Definition setPrice (v : Q) (p : Product) : Product :=
  mkProduct (id p) (name p) (description p) v (category p) (inStock p).
Definition setCategory (v : string) (p : Product) : Product :=
  mkProduct (id p) (name p) (description p) (price p) v (inStock p).
Definition setInStock (v : bool) (p : Product) : Product :=
  mkProduct (id p) (name p) (description p) (price p) (category p) v.

(** ** Request bodies *)

(** A JSON body with the five product fields, each present or not
    ([undefined]).  A present field holds a value of the kind validation
    asks for: a string, a number or a boolean. *)
Module Body.
Record t := mk {
  name : option string;
  description : option string;
  price : option Q;
  category : option string;
  inStock : option bool
}.
Definition empty : t := mk None None None None None.
End Body.

(** A body that passed [validateProductCreation]: every field is there. *)
Module CreateBody.
Record t := mk {
  name : string;
  description : string;
  price : Q;
  category : string;
  inStock : bool
}.
End CreateBody.

(** [parseFloat(v)] and [Boolean(v)] applied to a value that already is a
    number, respectively a boolean. *)
Definition parseFloat (v : Q) : Q := v.
Definition Boolean (v : bool) : bool := v.

(** ** Handlers as computations over the store *)

Definition Handler (A : Type) : Type := Store -> (AppError + A) * Store.

Definition ret {A} (a : A) : Handler A := fun st => (inr a, st).

Definition throw {A} (e : AppError) : Handler A := fun st => (inl e, st).

Definition bind {A B} (m : Handler A) (k : A -> Handler B) : Handler B :=
  fun st =>
    match m st with
    | (inl e, st') => (inl e, st')
    | (inr a, st') => k a st'
    end.

Declare Scope handler_scope.
Delimit Scope handler_scope with handler.
Bind Scope handler_scope with Handler.
Notation "'let*' x ':=' m 'in' k" := (bind m (fun x => k))
  (at level 10, x name, m at level 100, k at level 200,
   format "'[v' 'let*'  x  ':='  m  'in' '/' k ']'") : handler_scope.
Open Scope handler_scope.

(** Reading [products]. *)
Definition getProducts : Handler (list Product) :=
  fun st => (inr (products st), st).

(** [nextId++]: yields the old value and stores the successor. *)
Definition postIncrementNextId : Handler Z :=
  fun st => (inr (nextId st), mkStore (products st) (nextId st + 1)).

(** [products.push(p)] *)
Definition pushProduct (p : Product) : Handler unit :=
  fun st => (inr tt, mkStore (products st ++ [p])%list (nextId st)).

(** [products[i].field = v], as the update [f] of the object at index [i].
    The handlers reach it only with an index [findProductIndexById]
    returned, so the index is in range. *)
Definition assignAt (i : nat) (f : Product -> Product) : Handler unit :=
  fun st => (inr tt, mkStore (alter f i (products st)) (nextId st)).

(** [products.splice(i, 1)[0]] *)
Definition spliceOne (i : nat) : Handler (option Product) :=
  fun st => (inr (products st !! i), mkStore (delete i (products st)) (nextId st)).

(** [if (v !== undefined) action(v)] *)
Definition whenDefined {A} (v : option A) (action : A -> Handler unit) : Handler unit :=
  match v with
  | Some a => action a
  | None => ret tt
  end.

Definition notFoundMessage (id0 : Z) : string :=
  "Product with ID " ++ numberToString id0 ++ " not found".

Definition findProductById (id0 : Z) : Handler Product :=
  let* ps := getProducts in
  match list_find (fun p => id p = id0) ps with
  | Some (_, product) => ret product
  | None => throw (NotFoundError (notFoundMessage id0))
  end.

Definition findProductIndexById (id0 : Z) : Handler nat :=
  let* ps := getProducts in
  match list_find (fun p => id p = id0) ps with
  | Some (index, _) => ret index
  | None => throw (NotFoundError (notFoundMessage id0))
  end.

(** The double-quote character of the duplicate-name message. *)
Definition dquote : string := String (ascii_of_N 34) EmptyString.

Definition duplicateMessage (n : string) : string :=
  "Product with name " ++ dquote ++ n ++ dquote ++ " already exists".

(** ** The handlers of [/api/products] and [/api/products/:id] *)

Definition invalidIdError : AppError :=
  BadRequestError "Product ID must be a valid number".

(** GET /api/products/:id *)
Definition getProduct (idParam : string) : Handler Response :=
  let id0 := parseInt idParam in
  match id0 with
  | None => throw invalidIdError
  | Some id0 =>
      let* product := findProductById id0 in
      ret (mkResponse 200 (productJson product))
  end.

(** The duplicate-name test of the create handler:
    [p.name.toLowerCase() === name.trim().toLowerCase()]. *)
Definition sameNameAs (n : string) (p : Product) : Prop :=
  toLowerCase (name p) = toLowerCase (trim n).

#[global] Instance sameNameAs_dec n p : Decision (sameNameAs n p).
Proof. unfold sameNameAs. apply _. Defined.

(** The duplicate-name test of the update handler:
    [p.id !== id && p.name.toLowerCase() === name.trim().toLowerCase()]. *)
Definition otherWithSameName (id0 : Z) (n : string) (p : Product) : Prop :=
  id p <> id0 /\ toLowerCase (name p) = toLowerCase (trim n).

#[global] Instance otherWithSameName_dec id0 n p : Decision (otherWithSameName id0 n p).
Proof. unfold otherWithSameName. apply _. Defined.

(** POST /api/products, after [validateProductCreation] *)
Definition createProduct (b : CreateBody.t) : Handler Response :=
  let* ps := getProducts in
  match list_find (sameNameAs (CreateBody.name b)) ps with
  | Some _ => throw (ConflictError (duplicateMessage (CreateBody.name b)))
  | None =>
      let* newId := postIncrementNextId in
      let newProduct :=
        {| id := newId;
           name := trim (CreateBody.name b);
           description := trim (CreateBody.description b);
           price := parseFloat (CreateBody.price b);
           category := trim (CreateBody.category b);
           inStock := Boolean (CreateBody.inStock b) |} in
      let* _ := pushProduct newProduct in
      ret (mkResponse 201
             (JObj [ ("message", JStr "Product created successfully");
                     ("data", productJson newProduct) ]))
  end.

(** The [if (name) { ... }] block of the update handler. *)
Definition checkDuplicateOnUpdate (id0 : Z) (n : option string) : Handler unit :=
  match n with
  | Some n =>
      if truthy n then
        let* ps := getProducts in
        match list_find (otherWithSameName id0 n) ps with
        | Some _ => throw (ConflictError (duplicateMessage n))
        | None => ret tt
        end
      else ret tt
  | None => ret tt
  end.

(** PUT /api/products/:id, after [validateProductUpdate] *)
Definition updateProduct (idParam : string) (b : Body.t) : Handler Response :=
  match parseInt idParam with
  | None => throw invalidIdError
  | Some id0 =>
      let* productIndex := findProductIndexById id0 in
      let* _ := checkDuplicateOnUpdate id0 (Body.name b) in
      let* _ := whenDefined (Body.name b)
                  (fun v => assignAt productIndex (setName v)) in
      let* _ := whenDefined (Body.description b)
                  (fun v => assignAt productIndex (setDescription v)) in
      let* _ := whenDefined (Body.price b)
                  (fun v => assignAt productIndex (setPrice (parseFloat v))) in
      let* _ := whenDefined (Body.category b)
                  (fun v => assignAt productIndex (setCategory v)) in
      let* _ := whenDefined (Body.inStock b)
                  (fun v => assignAt productIndex (setInStock (Boolean v))) in
      let* ps := getProducts in
      ret (mkResponse 200
             (JObj [ ("message", JStr "Product update succesfully");
                     ("data", default JNull (productJson <$> ps !! productIndex)) ]))
  end.

(** DELETE /api/products/:id *)
Definition deleteProduct (idParam : string) : Handler Response :=
  match parseInt idParam with
  | None => throw invalidIdError
  | Some id0 =>
      let* productIndex := findProductIndexById id0 in
      let* deletedProduct := spliceOne productIndex in
      ret (mkResponse 200
             (JObj [ ("message", JStr "Product deleted successfully");
                     ("data", default JNull (productJson <$> deletedProduct)) ]))
  end.

(** ** The listing, search and statistics handlers *)

(** The query string: every parameter is a string or absent. *)
Module Query.
Record t := mk {
  page : option string;
  limit : option string;
  category : option string;
  inStock : option string;
  minPrice : option string;
  maxPrice : option string;
  sort : option string;
  q : option string
}.
Definition empty : t := mk None None None None None None None None.
End Query.

Record SortParams := mkSort { field : string; order : string }.

Record Pagination := mkPagination { page : Z; limit : Z; skip : Z }.

(** The functions of [utils/queryHelpers.js] and [utils/productHelpers.js]
    that the handlers call.  The two files are not among the sources; the
    handlers are stated over any implementation of this interface, every
    function of which is pure. *)
Class Helpers := {
  parsePagination : Query.t -> Pagination;
  parseSort : Query.t -> option SortParams;
  createPaginationMeta : Z -> Z -> Z -> json;
  filterByCategory : list Product -> option string -> list Product;
  filterByStock : list Product -> option string -> list Product;
  filterByPriceRange : list Product -> option string -> option string -> list Product;
  searchByName : list Product -> string -> list Product;
  sortProducts : list Product -> string -> string -> list Product;
  calculateStatistics : list Product -> json
}.

(** Modelled from the spec: [paginateProducts] of
    [utils/productHelpers.js] is not among the sources.  It returns the
    sub-sequence [[skip, skip+limit)] of the list, clamped to the
    available length, and nothing when [skip] exceeds the length. *)
Definition paginateProducts {A} (l : list A) (skip limit : Z) : list A :=
  take (Z.to_nat limit) (drop (Z.to_nat skip) l).

(** [v || null] for a query parameter. *)
Definition orNull (v : option string) : json :=
  match v with
  | Some s => if truthy s then JStr s else JNull
  | None => JNull
  end.

Definition isTruthy (v : option string) : bool :=
  match v with
  | Some s => truthy s
  | None => false
  end.

Definition sortJson (sp : option SortParams) : json :=
  match sp with
  | Some sp => JObj [ ("field", JStr (field sp)); ("order", JStr (order sp)) ]
  | None => JNull
  end.

Section ListingHandlers.

Context `{Helpers}.

(** GET /api/products *)
Definition listProducts (query : Query.t) : Handler Response :=
  let* ps := getProducts in
  let filteredProducts := ps in
  let filteredProducts :=
    match Query.q query with
    | Some q => if truthy q then searchByName filteredProducts q else filteredProducts
    | None => filteredProducts
    end in
  let filteredProducts := filterByCategory filteredProducts (Query.category query) in
  let filteredProducts := filterByStock filteredProducts (Query.inStock query) in
  let filteredProducts :=
    filterByPriceRange filteredProducts (Query.minPrice query) (Query.maxPrice query) in
  let sortParams := parseSort query in
  let filteredProducts :=
    match sortParams with
    | Some sp => sortProducts filteredProducts (field sp) (order sp)
    | None => filteredProducts
    end in
  let totalCount := Z.of_nat (length filteredProducts) in
  let pg := parsePagination query in
  let paginatedProducts := paginateProducts filteredProducts (skip pg) (limit pg) in
  let pagination := createPaginationMeta totalCount (page pg) (limit pg) in
  ret (mkResponse 200
         (JObj [ ("success", JBool true);
                 ("filters",
                  JObj [ ("category", orNull (Query.category query));
                         ("inStock", orNull (Query.inStock query));
                         ("minPrice", orNull (Query.minPrice query));
                         ("maxPrice", orNull (Query.maxPrice query));
                         ("search", orNull (Query.q query)) ]);
                 ("sort", sortJson sortParams);
                 ("pagination", pagination);
                 ("data", JArr (productJson <$> paginatedProducts)) ])).

Definition searchRequiredError : AppError :=
  BadRequestError
    ("Search query parameter " ++ dquote ++ "q" ++ dquote ++ " is required").

(** GET /api/products/search *)
Definition searchProducts (query : Query.t) : Handler Response :=
  match Query.q query with
  | Some q =>
      if truthy q && negb (String.eqb (trim q) "") then
        let* ps := getProducts in
        let results := searchByName ps q in
        let results :=
          if isTruthy (Query.category query)
          then filterByCategory results (Query.category query) else results in
        let results :=
          match Query.inStock query with
          | Some _ => filterByStock results (Query.inStock query)
          | None => results
          end in
        let pg := parsePagination query in
        let totalCount := Z.of_nat (length results) in
        let paginatedResults := paginateProducts results (skip pg) (limit pg) in
        let pagination := createPaginationMeta totalCount (page pg) (limit pg) in
        ret (mkResponse 200
               (JObj [ ("success", JBool true);
                       ("query", JStr q);
                       ("filters",
                        JObj [ ("category", orNull (Query.category query));
                               ("inStock", orNull (Query.inStock query)) ]);
                       ("pagination", pagination);
                       ("resultsCount", JNum (inject_Z totalCount));
                       ("data", JArr (productJson <$> paginatedResults)) ]))
      else throw searchRequiredError
  | None => throw searchRequiredError
  end.

(** GET /api/products/stats *)
Definition productStats (query : Query.t) : Handler Response :=
  let* ps := getProducts in
  let productsToAnalyze :=
    if isTruthy (Query.category query)
    then filterByCategory ps (Query.category query) else ps in
  let stats := calculateStatistics productsToAnalyze in
  ret (mkResponse 200
         (JObj [ ("success", JBool true);
                 ("filter",
                  if isTruthy (Query.category query)
                  then JObj [ ("category", orNull (Query.category query)) ]
                  else JNull);
                 ("statistics", stats) ])).

End ListingHandlers.

(** ** Middleware: the auth gate, validation and the error boundary *)

(** The two keys the server announces at start-up. *)
Definition validApiKeys : list string :=
  [ "your-secret-api-key-123"; "another-valid-key-456" ].

Definition unauthorized : AppError :=
  UnauthorizedError "API key is required. Please provide x-api-key header.".

Definition forbidden : AppError :=
  ForbiddenError "Invalid API key. Access denied.".

(** Modelled from the spec: [middleware/auth.js] is not among the
    sources.  The request header carries a key string; its absence signals
    Unauthorized, its presence with a value outside the allow-list signals
    Forbidden. *)
Definition authenticateApiKey (apiKey : option string) : Handler unit :=
  match apiKey with
  | None => throw unauthorized
  | Some k => if bool_decide (k ∈ validApiKeys) then ret tt else throw forbidden
  end.

(** Modelled from the spec: the field rules of
    [middleware/validation.js], which is not among the sources.  The
    length limits are the documented ones, 100 characters for a name and
    500 for a description. *)
Definition maxNameLength : nat := 100.
Definition maxDescriptionLength : nat := 500.

Definition nameErrors (v : string) : list string :=
  if negb (truthy v) || (maxNameLength <? String.length v)%nat
  then [ "Name is required and must be a non-empty string" ] else [].

Definition descriptionErrors (v : string) : list string :=
  if (maxDescriptionLength <? String.length v)%nat
  then [ "Description must be a string of at most 500 characters" ] else [].

Definition priceErrors (v : Q) : list string :=
  if Qle_bool v 0 then [ "Price must be a positive number" ] else [].

Definition categoryErrors (v : string) : list string :=
  if negb (truthy v)
  then [ "Category is required and must be a non-empty string" ] else [].

(** The rule of a field applied to a field that may be absent. *)
Definition ifPresent {A} (rule : A -> list string) (v : option A) : list string :=
  match v with
  | Some a => rule a
  | None => []
  end.

Definition required {A} (what : string) (rule : A -> list string) (v : option A)
  : list string :=
  match v with
  | Some a => rule a
  | None => [ what ++ " is required" ]
  end.

Definition validationFailed (errs : list string) : AppError :=
  ValidationError "Product validation failed" errs.

(** Modelled from the spec: [middleware/validation.js] is not among the
    sources.  Create requires all fields present and well-typed: name and
    category non-empty strings, the name within its length limit, the
    description a string within its limit, the price a positive number,
    inStock a boolean.  The violations are accumulated into one list. *)
Definition validateProductCreation (b : Body.t) : Handler CreateBody.t :=
  let errs :=
    (required "Name" nameErrors (Body.name b)
     ++ required "Description" descriptionErrors (Body.description b)
     ++ required "Price" priceErrors (Body.price b)
     ++ required "Category" categoryErrors (Body.category b)
     ++ required "inStock" (fun _ : bool => []) (Body.inStock b))%list in
  match errs, Body.name b, Body.description b, Body.price b,
        Body.category b, Body.inStock b with
  | [], Some n, Some d, Some p, Some c, Some s => ret (CreateBody.mk n d p c s)
  | _, _, _, _, _, _ => throw (validationFailed errs)
  end.

(** Modelled from the spec: [middleware/validation.js] is not among the
    sources.  Update accepts any subset of the same fields, each validated
    only if present; an empty body is accepted. *)
Definition validateProductUpdate (b : Body.t) : Handler unit :=
  let errs :=
    (ifPresent nameErrors (Body.name b)
     ++ ifPresent descriptionErrors (Body.description b)
     ++ ifPresent priceErrors (Body.price b)
     ++ ifPresent categoryErrors (Body.category b))%list in
  match errs with
  | [] => ret tt
  | _ => throw (validationFailed errs)
  end.

(** Modelled from the spec: [middleware/errorHandler.js] is not among the
    sources.  Every error raised within request handling is serialized as
    [{success: false, status, message, errors?}] under the HTTP status of
    its kind; an internal fault is answered with a generic message. *)
Definition errorHandler (e : AppError) : Response :=
  mkResponse (statusCode (kind e))
    (JObj ([ ("success", JBool false);
             ("status", JStr (if decide (kind e = Internal) then "error" else "fail"));
             ("message",
              JStr (if decide (kind e = Internal) then "Internal server error"
                    else message e)) ]
           ++ match errors e with
              | [] => []
              | errs => [ ("errors", JArr (JStr <$> errs)) ]
              end)%list).

(** ** Routing *)

(** What [/health] reads from the process. *)
Record Runtime := mkRuntime { isoNow : string; nodeEnv : string }.

(** A request after route matching.  The search and statistics routes are
    registered before [/api/products/:id], so [GetProduct] never carries
    the parameter of either. *)
Inductive Route :=
| Root
| Health
| ApiDocs
| TestError
| ListProducts (query : Query.t)
| SearchProducts (query : Query.t)
| ProductStats (query : Query.t)
| GetProduct (idParam : string)
| CreateProduct (body : Body.t)
| UpdateProduct (idParam : string) (body : Body.t)
| DeleteProduct (idParam : string)
| Unmatched.

Record Request := mkRequest {
  apiKey : option string;
  route : Route
}.

(** The routes registered with [authenticateApiKey]. *)
Definition requiresKey (r : Route) : bool :=
  match r with
  | ListProducts _ | SearchProducts _ | ProductStats _ | GetProduct _
  | CreateProduct _ | UpdateProduct _ _ | DeleteProduct _ => true
  | Root | Health | ApiDocs | TestError | Unmatched => false
  end.

Definition apiDocsJson : json :=
  JObj [ ("success", JBool true);
         ("message", JStr "Products API Documentation");
         ("version", JStr "1.0.0");
         ("endpoints",
          JObj [ ("products",
                  JObj [ ("listAll", JStr "GET /api/products");
                         ("getOne", JStr "GET /api/products/:id");
                         ("create", JStr "POST /api/products");
                         ("update", JStr "PUT /api/products/:id");
                         ("delete", JStr "DELETE /api/products/:id");
                         ("search", JStr "GET /api/products/search");
                         ("statistics", JStr "GET /api/products/stats") ]);
                 ("queryParameters",
                  JObj [ ("pagination", JStr "?page=1&limit=10");
                         ("filtering",
                          JStr "?category=Electronics&inStock=true&minPrice=50&maxPrice=500");
                         ("sorting", JStr "?sort=price (or ?sort=-price for descending)");
                         ("search", JStr "?q=laptop") ]) ]);
         ("authentication", JStr "Required: x-api-key header") ].

Section Server.

Context `{Helpers}.
Variable runtime : Runtime.

(** The middleware chain of each route, up to the response or the
    thrown error.  The message of the catch-all handler is written in
    single quotes in the source, so its placeholders are sent as they
    stand. *)
Definition dispatch (req : Request) : Handler Response :=
  match route req with
  | Root => ret (mkResponse 200 (JStr "Hello World"))
  | Health =>
      ret (mkResponse 200
             (JObj [ ("message", JStr "Server is running");
                     ("timestamp", JStr (isoNow runtime));
                     ("environment", JStr (nodeEnv runtime)) ]))
  | ApiDocs => ret (mkResponse 200 apiDocsJson)
  | TestError => throw (mkError Internal "This is a test error" [])
  | ListProducts query =>
      let* _ := authenticateApiKey (apiKey req) in
      listProducts query
  | SearchProducts query =>
      let* _ := authenticateApiKey (apiKey req) in
      searchProducts query
  | ProductStats query =>
      let* _ := authenticateApiKey (apiKey req) in
      productStats query
  | GetProduct idParam =>
      let* _ := authenticateApiKey (apiKey req) in
      getProduct idParam
  | CreateProduct b =>
      let* _ := authenticateApiKey (apiKey req) in
      let* valid := validateProductCreation b in
      createProduct valid
  | UpdateProduct idParam b =>
      let* _ := authenticateApiKey (apiKey req) in
      let* _ := validateProductUpdate b in
      updateProduct idParam b
  | DeleteProduct idParam =>
      let* _ := authenticateApiKey (apiKey req) in
      deleteProduct idParam
  | Unmatched =>
      throw (NotFoundError "Cannot ${req.method} ${req.url} - Resource not found")
  end.

(** One request served: the response sent and the store left behind. *)
Definition serve (req : Request) (st : Store) : Response * Store :=
  match dispatch req st with
  | (inr res, st') => (res, st')
  | (inl e, st') => (errorHandler e, st')
  end.

(** Requests served one after the other. *)
Fixpoint serveAll (reqs : list Request) (st : Store) : list Response * Store :=
  match reqs with
  | [] => ([], st)
  | req :: reqs' =>
      let '(res, st1) := serve req st in
      let '(rest, st2) := serveAll reqs' st1 in
      (res :: rest, st2)
  end.

End Server.

(** ** Sequences of store operations *)

Inductive Op :=
| OpCreate (b : CreateBody.t)
| OpUpdate (idParam : string) (b : Body.t)
| OpDelete (idParam : string).

Definition runOp (op : Op) : Handler Response :=
  match op with
  | OpCreate b => createProduct b
  | OpUpdate idParam b => updateProduct idParam b
  | OpDelete idParam => deleteProduct idParam
  end.

Definition step (op : Op) (st : Store) : Store := snd (runOp op st).

(** The stores an operation sequence goes through, the first one
    included. *)
Fixpoint trace (ops : list Op) (st : Store) : list Store :=
  st :: match ops with
        | [] => []
        | op :: ops' => trace ops' (step op st)
        end.

Definition finalStore (ops : list Op) (st : Store) : Store :=
  foldl (fun s op => step op s) st ops.

(** Two names are the same up to surrounding blanks and letter case. *)
Definition sameFoldedName (a b : string) : Prop :=
  toLowerCase (trim a) = toLowerCase (trim b).

#[global] Instance sameFoldedName_dec a b : Decision (sameFoldedName a b).
Proof. unfold sameFoldedName. apply _. Defined.

(** No two live products share a name up to blanks and case. *)
Definition namesUnique (st : Store) : Prop :=
  forall i j p q,
    products st !! i = Some p -> products st !! j = Some q ->
    i <> j -> ~ sameFoldedName (name p) (name q).

Definition validKey : option string := Some "your-secret-api-key-123".

(** The product after a partial update, in the spec's words: a field
    present in the body takes the body's value, every other field keeps
    its own. *)
Definition applyBody (b : Body.t) (p : Product) : Product :=
  {| id := id p;
     name := default (name p) (Body.name b);
     description := default (description p) (Body.description b);
     price := default (price p) (Body.price b);
     category := default (category p) (Body.category b);
     inStock := default (inStock p) (Body.inStock b) |}.

(** The kind of the error a handler run ended with, if it ended with one. *)
Definition outcomeKind {A} (r : (AppError + A) * Store) : option ErrorKind :=
  match fst r with
  | inl e => Some (kind e)
  | inr _ => None
  end.

(** ** What the handlers answer and leave behind *)

(** The record the create handler builds for a body and an id. *)
Definition createdProduct (newId : Z) (b : CreateBody.t) : Product :=
  {| id := newId;
     name := trim (CreateBody.name b);
     description := trim (CreateBody.description b);
     price := CreateBody.price b;
     category := trim (CreateBody.category b);
     inStock := CreateBody.inStock b |}.

Definition createdResponse (p : Product) : Response :=
  mkResponse 201
    (JObj [ ("message", JStr "Product created successfully");
            ("data", productJson p) ]).

Definition deletedResponse (p : option Product) : Response :=
  mkResponse 200
    (JObj [ ("message", JStr "Product deleted successfully");
            ("data", default JNull (productJson <$> p)) ]).

(** Whether the [if (name)] block of the update handler finds another
    product with the name. *)
Definition updateConflict (id0 : Z) (n : option string) (ps : list Product) : bool :=
  match n with
  | Some n => truthy n && bool_decide (is_Some (list_find (otherWithSameName id0 n) ps))
  | None => false
  end.

Definition updatedResponse (p : option Product) : Response :=
  mkResponse 200
    (JObj [ ("message", JStr "Product update succesfully");
            ("data", default JNull (productJson <$> p)) ]).

(** The stages of a list request in the spec's words: search, then the
    category, stock and price filters, then sorting.  Search and sorting
    apply when requested. *)
Section ListingStages.

Context `{Helpers}.

Definition searchStage (query : Query.t) (ps : list Product) : list Product :=
  if isTruthy (Query.q query) then searchByName ps (default "" (Query.q query)) else ps.

Definition filterStage (query : Query.t) (ps : list Product) : list Product :=
  filterByPriceRange
    (filterByStock (filterByCategory ps (Query.category query)) (Query.inStock query))
    (Query.minPrice query) (Query.maxPrice query).

Definition sortStage (query : Query.t) (ps : list Product) : list Product :=
  match parseSort query with
  | Some sp => sortProducts ps (field sp) (order sp)
  | None => ps
  end.

End ListingStages.

(** ** Reading an id parameter, in the spec's words *)

(** The leading decimal digits of a string. *)
Fixpoint decimalPrefix (s : string) : string :=
  match s with
  | String c s' => if isDecimalDigit c then String c (decimalPrefix s') else EmptyString
  | EmptyString => EmptyString
  end.

(** An id is read as its numeric prefix when the three [:id] handlers do
    on it what they do on its leading decimal digits alone. *)
Definition readAsDecimalPrefix (idParam : string) : Prop :=
  forall (b : Body.t) (st : Store),
    getProduct idParam st = getProduct (decimalPrefix idParam) st
    /\ updateProduct idParam b st = updateProduct (decimalPrefix idParam) b st
    /\ deleteProduct idParam st = deleteProduct (decimalPrefix idParam) st.

(** The string starts with [0x] or [0X]. *)
Definition startsWithHexMarker (s : string) : bool :=
  match s with
  | String c (String x _) => Ascii.eqb c "0" && (Ascii.eqb x "x" || Ascii.eqb x "X")
  | _ => false
  end.

(** A string has a parseable leading number when, past its leading blanks,
    an optional sign and an optional hexadecimal marker, it goes on with a
    digit of the radix. *)
Definition hasLeadingNumber (s : string) : bool :=
  let '(_, s1) := stripSign (trimStart s) in
  let '(radix, s2) := stripHexPrefix s1 in
  match s2 with
  | String c _ => bool_decide (is_Some (digitValue radix c))
  | EmptyString => false
  end.

(** ** What one operation does to the store *)

(** The four ways an operation moves the store: it fails and changes
    nothing, or it appends a product under the current counter value and
    advances the counter, or it rewrites the fields of the first product
    with the id, or it removes that product. *)
Inductive Moves : Op -> Store -> Store -> Prop :=
| MovesNot op st :
    Moves op st st
| MovesCreate st b :
    list_find (sameNameAs (CreateBody.name b)) (products st) = None ->
    Moves (OpCreate b) st
      (mkStore (products st ++ [createdProduct (nextId st) b])%list (nextId st + 1))
| MovesUpdate st idParam id0 index p b :
    parseInt idParam = Some id0 ->
    list_find (fun p => id p = id0) (products st) = Some (index, p) ->
    updateConflict id0 (Body.name b) (products st) = false ->
    Moves (OpUpdate idParam b) st
      (mkStore (alter (applyBody b) index (products st)) (nextId st))
| MovesDelete st idParam id0 index p :
    parseInt idParam = Some id0 ->
    list_find (fun p => id p = id0) (products st) = Some (index, p) ->
    Moves (OpDelete idParam) st (mkStore (delete index (products st)) (nextId st)).

(** ** Store invariants *)

(** Every live id is below the counter. *)
Definition idsBelowNext (st : Store) : Prop :=
  forall p, p ∈ products st -> id p < nextId st.

(** Every live name is stored trimmed, as the create handler stores it. *)
Definition namesTrimmed (st : Store) : Prop :=
  forall p, p ∈ products st -> trim (name p) = name p.

(** A name up to surrounding blanks and letter case. *)
Definition foldedName (p : Product) : string := toLowerCase (trim (name p)).

(** What the handlers keep when every name they are given on update is
    already trimmed. *)
Record WellKept (st : Store) : Prop := mkWellKept {
  kept_below : idsBelowNext st;
  kept_ids : NoDup (id <$> products st);
  kept_trimmed : namesTrimmed st;
  kept_names : NoDup (foldedName <$> products st)
}.

(** An operation is tidy when the name it carries for an update, if any,
    is non-empty and has no surrounding blanks. *)
Definition tidyOp (op : Op) : Prop :=
  match op with
  | OpUpdate _ b =>
      match Body.name b with
      | Some n => truthy n = true /\ trim n = n
      | None => True
      end
  | OpCreate _ | OpDelete _ => True
  end.

(** ** Sample requests *)

Definition paddedGadget : Body.t :=
  Body.mk (Some " Gadget ") None None None None.

Definition leftPaddedGadget : Body.t :=
  Body.mk (Some " Gadget") None None None None.

Definition leftPaddedLower : Body.t :=
  Body.mk (Some " gadget") None None None None.

Definition emptyName : Body.t :=
  Body.mk (Some "") None None None None.

Definition gadget : CreateBody.t :=
  CreateBody.mk "Gadget" "A small tool" (5 # 1) "Tools" true.

Definition gadgetBody : Body.t :=
  Body.mk (Some "Gadget") (Some "A small tool") (Some (5 # 1)) (Some "Tools") (Some true).

Definition widget : CreateBody.t :=
  CreateBody.mk "Widget" "d" (999 # 100) "X" true.

Definition priceAndStock : Body.t :=
  Body.mk None None (Some (119999 # 100)) None (Some false).

Definition withKey (r : Route) : Request := mkRequest validKey r.

(** An implementation of the helper interface to run requests with: it
    searches and filters nothing, never sorts, and puts every request on
    the first page of ten. *)
Definition plainHelpers : Helpers :=
  {| parsePagination := fun _ => mkPagination 1 10 0;
     parseSort := fun _ => None;
     createPaginationMeta := fun totalCount page limit =>
       JObj [ ("currentPage", JNum (inject_Z page));
              ("totalItems", JNum (inject_Z totalCount));
              ("itemsPerPage", JNum (inject_Z limit)) ];
     filterByCategory := fun ps _ => ps;
     filterByStock := fun ps _ => ps;
     filterByPriceRange := fun ps _ _ => ps;
     searchByName := fun ps _ => ps;
     sortProducts := fun ps _ _ => ps;
     calculateStatistics := fun ps =>
       JObj [ ("totalProducts", JNum (inject_Z (Z.of_nat (length ps)))) ] |}.

Definition sampleRuntime : Runtime := mkRuntime "2025-10-17T10:30:00.000Z" "development".

Definition laptop : Product :=
  mkProduct 1 "Laptop Pro" "High-performance laptop" (129999 # 100) "Electronics" true.

(** ** Further notions for the properties of the handlers *)

(** What every store the handlers produce satisfies: the live ids are
    pairwise different, each lies between 1 and the counter (excluded),
    and the counter has not gone below its initial value. *)
Definition storeSound (st : Store) : Prop :=
  NoDup (id <$> products st)
  /\ (forall p, p ∈ products st -> 1 <= id p < nextId st)
  /\ 4 <= nextId st.

(** A string starts, respectively ends, with a blank. *)
Definition startsBlank (s : string) : bool :=
  match s with
  | String c _ => isWhiteSpace c
  | EmptyString => false
  end.

Fixpoint endsBlank (s : string) : bool :=
  match s with
  | EmptyString => false
  | String c EmptyString => isWhiteSpace c
  | String _ s' => endsBlank s'
  end.


(** Some live product other than the one with id [id0] bears the name
    [n] up to the case of both and the surrounding blanks of [n]. *)
Definition nameTakenByOther (id0 : Z) (n : string) (ps : list Product) : Prop :=
  exists q, q ∈ ps /\ id q <> id0 /\ toLowerCase (name q) = toLowerCase (trim n).

(** Some live product bears the name [n] in that sense. *)
Definition nameTaken (n : string) (ps : list Product) : Prop :=
  exists p, p ∈ ps /\ toLowerCase (name p) = toLowerCase (trim n).

(** The operation a request amounts to on the store, when it has one:
    only create, update and delete requests do. *)
Definition changesStoreAs (r : Route) (op : Op) (st : Store) : Prop :=
  match r, op with
  | CreateProduct b, OpCreate valid => validateProductCreation b st = (inr valid, st)
  | UpdateProduct idParam b, OpUpdate idParam' b' => idParam' = idParam /\ b' = b
  | DeleteProduct idParam, OpDelete idParam' => idParam' = idParam
  | _, _ => False
  end.

Section SearchStages.

Context `{Helpers}.

(** The collection the search request counts and paginates: the matches
    of [q], narrowed by category when one is given and by stock status
    when the parameter is present. *)
Definition searchResults (query : Query.t) (ps : list Product) : list Product :=
  let results := searchByName ps (default "" (Query.q query)) in
  let results :=
    if isTruthy (Query.category query)
    then filterByCategory results (Query.category query) else results in
  match Query.inStock query with
  | Some _ => filterByStock results (Query.inStock query)
  | None => results
  end.

End SearchStages.

(** * Properties *)

(** ** Running the handlers *)

Lemma store_eta (st : Store) : mkStore (products st) (nextId st) = st.
Proof. destruct st; reflexivity. Qed.

Lemma bind_run {A B} (m : Handler A) (k : A -> Handler B) (st : Store) :
  bind m k st =
  match m st with
  | (inl e, st') => (inl e, st')
  | (inr a, st') => k a st'
  end.
Proof. reflexivity. Qed.

Lemma findProductIndexById_run (id0 : Z) (st : Store) :
  findProductIndexById id0 st =
  match list_find (fun p => id p = id0) (products st) with
  | Some (index, _) => (inr index, st)
  | None => (inl (NotFoundError (notFoundMessage id0)), st)
  end.
Proof.
  unfold findProductIndexById, bind, getProducts.
  destruct (list_find _ _) as [[index p]|]; reflexivity.
Qed.

Lemma findProductById_run (id0 : Z) (st : Store) :
  findProductById id0 st =
  match list_find (fun p => id p = id0) (products st) with
  | Some (_, product) => (inr product, st)
  | None => (inl (NotFoundError (notFoundMessage id0)), st)
  end.
Proof.
  unfold findProductById, bind, getProducts.
  destruct (list_find _ _) as [[index p]|]; reflexivity.
Qed.

Lemma getProduct_run (idParam : string) (st : Store) :
  getProduct idParam st =
  match parseInt idParam with
  | None => (inl invalidIdError, st)
  | Some id0 =>
      match list_find (fun p => id p = id0) (products st) with
      | Some (_, product) => (inr (mkResponse 200 (productJson product)), st)
      | None => (inl (NotFoundError (notFoundMessage id0)), st)
      end
  end.
Proof.
  unfold getProduct. destruct (parseInt idParam) as [id0|]; [|reflexivity].
  rewrite bind_run, findProductById_run.
  destruct (list_find _ _) as [[index p]|]; reflexivity.
Qed.

Lemma createProduct_run (b : CreateBody.t) (st : Store) :
  createProduct b st =
  match list_find (sameNameAs (CreateBody.name b)) (products st) with
  | Some _ => (inl (ConflictError (duplicateMessage (CreateBody.name b))), st)
  | None =>
      (inr (createdResponse (createdProduct (nextId st) b)),
       mkStore (products st ++ [createdProduct (nextId st) b])%list (nextId st + 1))
  end.
Proof.
  unfold createProduct, bind, getProducts.
  destruct (list_find _ _) as [[index p]|]; reflexivity.
Qed.

Lemma deleteProduct_run (idParam : string) (st : Store) :
  deleteProduct idParam st =
  match parseInt idParam with
  | None => (inl invalidIdError, st)
  | Some id0 =>
      match list_find (fun p => id p = id0) (products st) with
      | Some (index, p) =>
          (inr (deletedResponse (Some p)),
           mkStore (delete index (products st)) (nextId st))
      | None => (inl (NotFoundError (notFoundMessage id0)), st)
      end
  end.
Proof.
  unfold deleteProduct. destruct (parseInt idParam) as [id0|]; [|reflexivity].
  rewrite bind_run, findProductIndexById_run.
  destruct (list_find _ _) as [[index p]|] eqn:Hfind; [|reflexivity].
  apply list_find_Some in Hfind as (Hlook & _ & _).
  unfold bind, spliceOne, ret, deletedResponse. rewrite Hlook. reflexivity.
Qed.

Lemma whenDefined_assign {A} (v : option A) (i : nat) (f : A -> Product -> Product)
    (st : Store) :
  whenDefined v (fun a => assignAt i (f a)) st =
  (inr tt,
   mkStore (alter (from_option f (fun p => p) v) i (products st)) (nextId st)).
Proof.
  destruct v as [a|]; simpl; [reflexivity|].
  unfold ret. rewrite list_alter_id by reflexivity. by rewrite store_eta.
Qed.

Lemma checkDuplicateOnUpdate_run (id0 : Z) (n : option string) (st : Store) :
  checkDuplicateOnUpdate id0 n st =
  if updateConflict id0 n (products st)
  then (inl (ConflictError (duplicateMessage (default "" n))), st)
  else (inr tt, st).
Proof.
  unfold checkDuplicateOnUpdate, updateConflict.
  destruct n as [n|]; [|reflexivity].
  destruct (truthy n); [|reflexivity].
  unfold bind, getProducts; simpl.
  destruct (list_find _ _) as [[index p]|]; reflexivity.
Qed.

Lemma applyBody_assignments (b : Body.t) (p : Product) :
  from_option (fun v => setInStock (Boolean v)) (fun p => p) (Body.inStock b)
    (from_option setCategory (fun p => p) (Body.category b)
       (from_option (fun v => setPrice (parseFloat v)) (fun p => p) (Body.price b)
          (from_option setDescription (fun p => p) (Body.description b)
             (from_option setName (fun p => p) (Body.name b) p))))
  = applyBody b p.
Proof.
  destruct b as [[n|] [d|] [pr|] [c|] [s|]], p; reflexivity.
Qed.

Lemma updateProduct_run (idParam : string) (b : Body.t) (st : Store) :
  updateProduct idParam b st =
  match parseInt idParam with
  | None => (inl invalidIdError, st)
  | Some id0 =>
      match list_find (fun p => id p = id0) (products st) with
      | Some (index, p) =>
          if updateConflict id0 (Body.name b) (products st)
          then (inl (ConflictError (duplicateMessage (default "" (Body.name b)))), st)
          else (inr (updatedResponse (Some (applyBody b p))),
                mkStore (alter (applyBody b) index (products st)) (nextId st))
      | None => (inl (NotFoundError (notFoundMessage id0)), st)
      end
  end.
Proof.
  unfold updateProduct. destruct (parseInt idParam) as [id0|]; [|reflexivity].
  rewrite bind_run, findProductIndexById_run.
  destruct (list_find _ _) as [[index p]|] eqn:Hfind; [|reflexivity].
  apply list_find_Some in Hfind as (Hlook & _ & _).
  rewrite bind_run, checkDuplicateOnUpdate_run.
  destruct (updateConflict _ _ _); [reflexivity|].
  repeat (rewrite bind_run, whenDefined_assign; cbn [products nextId]).
  unfold bind, getProducts, ret; cbn [products nextId].
  rewrite !list_alter_alter_eq.
  rewrite (list_alter_ext _ (applyBody b) _ (products st) index);
    [|intros q _; apply applyBody_assignments|reflexivity].
  rewrite list_lookup_alter_eq, Hlook. reflexivity.
Qed.

(** ** Errors leave the store alone *)

(** C9: whenever a create, update or delete operation signals an error,
    the error is BadRequest, NotFound or Conflict, and the store (the
    product list and the next-id counter) is what it was before the
    operation. *)
Theorem failed_operation_keeps_store (op : Op) (st st' : Store) (e : AppError) :
  runOp op st = (inl e, st') ->
  st' = st /\ (kind e = BadRequest \/ kind e = NotFound \/ kind e = Conflict).
Proof.
  destruct op as [b|idParam b|idParam]; simpl.
  - rewrite createProduct_run.
    destruct (list_find _ _) as [[index p]|]; intros [= <- <-]; auto.
  - rewrite updateProduct_run.
    destruct (parseInt idParam) as [id0|]; [|intros [= <- <-]; auto].
    destruct (list_find _ _) as [[index p]|]; [|intros [= <- <-]; auto].
    destruct (updateConflict _ _ _); intros [= <- <-]; auto.
  - rewrite deleteProduct_run.
    destruct (parseInt idParam) as [id0|]; [|intros [= <- <-]; auto].
    destruct (list_find _ _) as [[index p]|]; intros [= <- <-]; auto.
Qed.

Lemma failed_operation_keeps_store_witness :
  runOp (OpDelete "999") initialStore
  = (inl (NotFoundError (notFoundMessage 999)), initialStore)
  /\ (initialStore = initialStore
      /\ (kind (NotFoundError (notFoundMessage 999)) = BadRequest
          \/ kind (NotFoundError (notFoundMessage 999)) = NotFound
          \/ kind (NotFoundError (notFoundMessage 999)) = Conflict)).
Proof.
  split; [reflexivity|].
  apply (failed_operation_keeps_store (OpDelete "999") initialStore initialStore).
  reflexivity.
Defined.

(** ** Partial update *)

Lemma applyBody_empty (p : Product) : applyBody Body.empty p = p.
Proof. destruct p; reflexivity. Qed.

Lemma validateProductUpdate_empty (st : Store) :
  validateProductUpdate Body.empty st = (inr tt, st).
Proof. reflexivity. Qed.

(** C8: for an id that designates a live product, an update that succeeds
    keeps the counter, gives the targeted product the body's value in
    every field the body has and its own value in every other field, and
    leaves the product at every other position as it was; the empty body
    passes validation, is answered with success and leaves the store
    unchanged. *)
Theorem update_changes_given_fields_only
    (st : Store) (idParam : string) (b : Body.t) (p0 : Product) :
  p0 ∈ products st ->
  parseInt idParam = Some (id p0) ->
  (validateProductUpdate Body.empty st = (inr tt, st)
   /\ exists res, updateProduct idParam Body.empty st = (inr res, st))
  /\ (forall res st',
        updateProduct idParam b st = (inr res, st') ->
        exists i p,
          products st !! i = Some p /\ id p = id p0
          /\ nextId st' = nextId st
          /\ products st' !! i = Some (applyBody b p)
          /\ length (products st') = length (products st)
          /\ forall j, j <> i -> products st' !! j = products st !! j).
Proof.
  intros Hin Hid.
  destruct (list_find_elem_of (fun p => id p = id p0) (products st) p0 Hin eq_refl)
    as [[i p] Hfind].
  pose proof Hfind as (Hlook & Hp & _)%list_find_Some.
  split.
  - split; [apply validateProductUpdate_empty|].
    rewrite updateProduct_run, Hid, Hfind. cbn [Body.name Body.empty updateConflict].
    eexists. f_equal.
    rewrite list_alter_id by apply applyBody_empty. apply store_eta.
  - intros res st'. rewrite updateProduct_run, Hid, Hfind.
    destruct (updateConflict _ _ _); [discriminate|].
    intros [= <- <-]. exists i, p. cbn [products nextId].
    repeat split; try done.
    + by rewrite list_lookup_alter_eq, Hlook.
    + apply length_alter.
    + intros j Hj. by apply list_lookup_alter_ne.
Qed.

Lemma update_changes_given_fields_only_witness :
  laptop ∈ products initialStore
  /\ parseInt "1" = Some (id laptop)
  /\ exists res st',
       updateProduct "1" priceAndStock initialStore = (inr res, st')
       /\ exists i p,
            products initialStore !! i = Some p /\ id p = id laptop
            /\ nextId st' = nextId initialStore
            /\ products st' !! i = Some (applyBody priceAndStock p)
            /\ length (products st') = length (products initialStore)
            /\ forall j, j <> i -> products st' !! j = products initialStore !! j.
Proof.
  assert (Hin : laptop ∈ products initialStore) by (apply list_elem_of_here).
  split; [exact Hin|]. split; [reflexivity|].
  eexists _, _. split; [reflexivity|].
  eapply (proj2 (update_changes_given_fields_only
                   initialStore "1" priceAndStock laptop Hin eq_refl)).
  reflexivity.
Defined.

(** ** Pagination *)

(** C7: for a list and non-negative [skip] and [limit], [paginateProducts]
    returns the elements at positions [skip] to [skip + limit - 1] that
    exist; its length is [min limit (max 0 (length - skip))] and it is
    empty when [skip] is at or past the length. *)
Theorem paginateProducts_window {A} (l : list A) (skip limit : Z) :
  0 <= skip -> 0 <= limit ->
  Z.of_nat (length (paginateProducts l skip limit))
  = Z.min limit (Z.max 0 (Z.of_nat (length l) - skip))
  /\ (forall i : nat,
        paginateProducts l skip limit !! i
        = if bool_decide (Z.of_nat i < limit) then l !! (Z.to_nat skip + i)%nat else None)
  /\ (Z.of_nat (length l) <= skip -> paginateProducts l skip limit = []).
Proof.
  intros Hskip Hlimit. unfold paginateProducts. repeat split.
  - rewrite length_take, length_drop. lia.
  - intros i. case_bool_decide as Hi.
    + rewrite lookup_take_lt by lia. apply lookup_drop.
    + apply lookup_take_ge. lia.
  - intros Hlen. rewrite drop_ge by lia. apply take_nil.
Qed.

Lemma paginateProducts_window_witness :
  0 <= 1 /\ 0 <= 2
  /\ Z.of_nat (length (paginateProducts (products initialStore) 1 2))
     = Z.min 2 (Z.max 0 (Z.of_nat (length (products initialStore)) - 1)).
Proof.
  split; [lia|]. split; [lia|].
  apply (paginateProducts_window (products initialStore) 1 2); lia.
Defined.

(** ** The list request *)

Lemma listProducts_run `{Helpers} (query : Query.t) (st : Store) :
  let collection := sortStage query (filterStage query (searchStage query (products st))) in
  let pg := parsePagination query in
  listProducts query st =
  (inr (mkResponse 200
          (JObj [ ("success", JBool true);
                  ("filters",
                   JObj [ ("category", orNull (Query.category query));
                          ("inStock", orNull (Query.inStock query));
                          ("minPrice", orNull (Query.minPrice query));
                          ("maxPrice", orNull (Query.maxPrice query));
                          ("search", orNull (Query.q query)) ]);
                  ("sort", sortJson (parseSort query));
                  ("pagination",
                   createPaginationMeta (Z.of_nat (length collection)) (page pg) (limit pg));
                  ("data",
                   JArr (productJson <$> paginateProducts collection (skip pg) (limit pg))) ])),
   st).
Proof.
  unfold listProducts, bind, getProducts, ret, sortStage, filterStage, searchStage, isTruthy.
  destruct (Query.q query) as [q|]; [destruct (truthy q)|];
    destruct (parseSort query) as [sp|]; reflexivity.
Qed.

(** C4: a list request searches, then applies the category, stock and
    price filters, then sorts, then counts, then paginates: the count
    handed to the pagination metadata is the length of the collection
    after search, filters and sort, and the page is cut from that same
    collection afterwards. *)
Theorem listing_counts_before_paginating `{Helpers} (query : Query.t) (st : Store) :
  let collection := sortStage query (filterStage query (searchStage query (products st))) in
  let pg := parsePagination query in
  exists res,
    listProducts query st = (inr res, st)
    /\ jsonField "pagination" (body res)
       = Some (createPaginationMeta (Z.of_nat (length collection)) (page pg) (limit pg))
    /\ jsonField "data" (body res)
       = Some (JArr (productJson <$> paginateProducts collection (skip pg) (limit pg))).
Proof.
  intros collection pg. eexists. split; [apply listProducts_run|].
  split; reflexivity.
Qed.

(** ** The auth gate *)

Lemma authenticateApiKey_run (key : option string) (st : Store) :
  authenticateApiKey key st =
  match key with
  | None => (inl unauthorized, st)
  | Some k => if bool_decide (k ∈ validApiKeys) then (inr tt, st) else (inl forbidden, st)
  end.
Proof.
  unfold authenticateApiKey. destruct key as [k|]; [|reflexivity].
  destruct (bool_decide _); reflexivity.
Qed.

(** C6: on every route behind the auth gate, a request without the
    [x-api-key] header is answered 401 Unauthorized and a request whose
    key is not on the allow-list is answered 403 Forbidden; in both cases
    the answer is the same whatever the body, the parameters and the store
    are, and the store is left as it was: neither validation nor the
    handler has run. *)
Theorem gate_rejects_before_anything_else `{Helpers}
    (runtime : Runtime) (req : Request) (st : Store) :
  requiresKey (route req) = true ->
  (apiKey req = None ->
     dispatch runtime req st = (inl unauthorized, st)
     /\ serve runtime req st = (errorHandler unauthorized, st)
     /\ status (errorHandler unauthorized) = 401)
  /\ (forall k, apiKey req = Some k -> k ∉ validApiKeys ->
        dispatch runtime req st = (inl forbidden, st)
        /\ serve runtime req st = (errorHandler forbidden, st)
        /\ status (errorHandler forbidden) = 403).
Proof.
  intros Hroute.
  assert (Hgate : forall e,
            authenticateApiKey (apiKey req) st = (inl e, st) ->
            dispatch runtime req st = (inl e, st)).
  { intros e He. unfold dispatch.
    destruct (route req); try discriminate Hroute; by rewrite bind_run, He. }
  split.
  - intros Hkey.
    assert (Hd : dispatch runtime req st = (inl unauthorized, st)).
    { apply Hgate. by rewrite authenticateApiKey_run, Hkey. }
    unfold serve. by rewrite Hd.
  - intros k Hkey Hk.
    assert (Hd : dispatch runtime req st = (inl forbidden, st)).
    { apply Hgate. rewrite authenticateApiKey_run, Hkey.
      by rewrite bool_decide_eq_false_2. }
    unfold serve. by rewrite Hd.
Qed.

Lemma gate_rejects_before_anything_else_witness :
  requiresKey (route (mkRequest None (CreateProduct Body.empty))) = true
  /\ apiKey (mkRequest None (CreateProduct Body.empty)) = None
  /\ @serve plainHelpers sampleRuntime (mkRequest None (CreateProduct Body.empty))
       initialStore
     = (errorHandler unauthorized, initialStore)
  /\ status (errorHandler unauthorized) = 401.
Proof.
  split; [reflexivity|]. split; [reflexivity|].
  apply (proj1 (@gate_rejects_before_anything_else plainHelpers sampleRuntime
                  (mkRequest None (CreateProduct Body.empty)) initialStore eq_refl)
               eq_refl).
Defined.

(** ** Failed requests *)

Lemma validateProductCreation_store (b : Body.t) (st : Store) :
  snd (validateProductCreation b st) = st.
Proof.
  unfold validateProductCreation.
  destruct (_ ++ _)%list;
    destruct (Body.name b), (Body.description b), (Body.price b),
             (Body.category b), (Body.inStock b); reflexivity.
Qed.

Lemma validateProductUpdate_store (b : Body.t) (st : Store) :
  snd (validateProductUpdate b st) = st.
Proof. unfold validateProductUpdate. by destruct (_ ++ _)%list. Qed.

(** X4: errors leave the store alone one level up as well: whatever
    request the server answers with an error, be it refused by the gate,
    by validation or by the handler, leaves the store as it was. *)
Lemma failed_request_keeps_store `{Helpers}
    (runtime : Runtime) (req : Request) (st st' : Store) (e : AppError) :
  dispatch runtime req st = (inl e, st') -> st' = st.
Proof.
  unfold dispatch.
  destruct (route req) as [| | | |query|query|query|idParam|b|idParam b|idParam|];
    try (intros [= <- <-]; reflexivity);
    rewrite bind_run, authenticateApiKey_run;
    (destruct (apiKey req) as [k|]; [destruct (bool_decide _)|]);
    try (intros [= <- <-]; reflexivity); cbn beta iota.
  - unfold searchProducts. destruct (Query.q query) as [q|]; [|by intros [= <- <-]].
    destruct (truthy q && negb (String.eqb (trim q) "")); [discriminate|by intros [= <- <-]].
  - rewrite getProduct_run. destruct (parseInt idParam) as [id0|]; [|by intros [= <- <-]].
    destruct (list_find _ _) as [[index p]|]; [discriminate|by intros [= <- <-]].
  - rewrite bind_run. pose proof (validateProductCreation_store b st) as Hst.
    destruct (validateProductCreation b st) as [[e'|valid] st1]; simpl in Hst; subst st1.
    + by intros [= <- <-].
    + rewrite createProduct_run.
      destruct (list_find _ _) as [[index p]|]; [by intros [= <- <-]|discriminate].
  - rewrite bind_run. pose proof (validateProductUpdate_store b st) as Hst.
    destruct (validateProductUpdate b st) as [[e'|[]] st1]; simpl in Hst; subst st1.
    + by intros [= <- <-].
    + rewrite updateProduct_run.
      destruct (parseInt idParam) as [id0|]; [|by intros [= <- <-]].
      destruct (list_find _ _) as [[index p]|]; [|by intros [= <- <-]].
      destruct (updateConflict _ _ _); [by intros [= <- <-]|discriminate].
  - rewrite deleteProduct_run.
    destruct (parseInt idParam) as [id0|]; [|by intros [= <- <-]].
    destruct (list_find _ _) as [[index p]|]; [discriminate|by intros [= <- <-]].
Qed.

Lemma failed_request_keeps_store_witness :
  @dispatch plainHelpers sampleRuntime (withKey (DeleteProduct "999")) initialStore
  = (inl (NotFoundError (notFoundMessage 999)), initialStore)
  /\ initialStore = initialStore.
Proof.
  split; [reflexivity|].
  apply (@failed_request_keeps_store plainHelpers sampleRuntime
           (withKey (DeleteProduct "999")) initialStore initialStore
           (NotFoundError (notFoundMessage 999))).
  reflexivity.
Defined.

(** ** Identifiers *)

Lemma step_Moves (op : Op) (st : Store) : Moves op st (step op st).
Proof.
  unfold step. destruct op as [b|idParam b|idParam]; simpl.
  - rewrite createProduct_run.
    destruct (list_find _ _) as [[index p]|] eqn:Hfind; simpl; [constructor|].
    by apply MovesCreate.
  - rewrite updateProduct_run.
    destruct (parseInt idParam) as [id0|] eqn:Hid; [|constructor].
    destruct (list_find _ _) as [[index p]|] eqn:Hfind; [|constructor].
    destruct (updateConflict _ _ _) eqn:Hdup; simpl; [constructor|].
    by eapply MovesUpdate.
  - rewrite deleteProduct_run.
    destruct (parseInt idParam) as [id0|] eqn:Hid; [|constructor].
    destruct (list_find _ _) as [[index p]|] eqn:Hfind; simpl; [|constructor].
    by eapply MovesDelete.
Qed.

Lemma elem_of_alter_applyBody (b : Body.t) (i : nat) (ps : list Product) (q : Product) :
  q ∈ alter (applyBody b) i ps -> exists p, p ∈ ps /\ id q = id p.
Proof.
  intros [j Hj]%list_elem_of_lookup.
  destruct (decide (i = j)) as [->|Hne].
  - rewrite list_lookup_alter_eq in Hj.
    destruct (ps !! j) as [p|] eqn:Hp; [|discriminate].
    injection Hj as <-. exists p. split; [|reflexivity].
    by eapply list_elem_of_lookup_2.
  - rewrite list_lookup_alter_ne in Hj by done.
    exists q. split; [|reflexivity]. by eapply list_elem_of_lookup_2.
Qed.

Lemma Moves_nextId (op : Op) (st st' : Store) :
  Moves op st st' -> nextId st <= nextId st'.
Proof. destruct 1; simpl; lia. Qed.

Lemma Moves_idsBelowNext (op : Op) (st st' : Store) :
  Moves op st st' -> idsBelowNext st -> idsBelowNext st'.
Proof.
  intros Hmove Hinv. destruct Hmove; [done|..]; intros q Hq; cbn [products nextId] in *.
  - apply elem_of_app in Hq as [Hq|Hq%list_elem_of_singleton].
    + specialize (Hinv q Hq). lia.
    + subst q. simpl. lia.
  - apply elem_of_alter_applyBody in Hq as (p' & Hp' & ->). by apply Hinv.
  - apply Hinv. by eapply list_elem_of_delete_inv.
Qed.

Lemma initialStore_idsBelowNext : idsBelowNext initialStore.
Proof.
  intros p Hp. cbn in Hp.
  repeat (apply elem_of_cons in Hp as [->|Hp]; [reflexivity|]).
  by apply elem_of_nil in Hp.
Qed.

Lemma finalStore_nextId (ops : list Op) (st : Store) :
  nextId st <= nextId (finalStore ops st).
Proof.
  revert st. induction ops as [|op ops IH]; intros st; [reflexivity|].
  cbn. etrans; [|apply IH]. eapply Moves_nextId, step_Moves.
Qed.

Lemma finalStore_idsBelowNext (ops : list Op) (st : Store) :
  idsBelowNext st -> idsBelowNext (finalStore ops st).
Proof.
  revert st. induction ops as [|op ops IH]; intros st Hinv; [done|].
  cbn. apply IH. eapply Moves_idsBelowNext; [apply step_Moves|done].
Qed.

(** Every id that was live at some point of a run is below the counter
    the run ends with. *)
Lemma trace_ids_below_final (ops : list Op) (st : Store) :
  idsBelowNext st ->
  forall s q, s ∈ trace ops st -> q ∈ products s ->
    id q < nextId (finalStore ops st).
Proof.
  revert st. induction ops as [|op ops IH]; intros st Hinv s q Hs Hq.
  - cbn in Hs. apply list_elem_of_singleton in Hs as ->. by apply Hinv.
  - cbn [trace] in Hs. apply elem_of_cons in Hs as [->|Hs].
    + specialize (Hinv q Hq). pose proof (finalStore_nextId (op :: ops) st). lia.
    + cbn. eapply IH; [|done..].
      eapply Moves_idsBelowNext; [apply step_Moves|done].
Qed.

(** C5: after any sequence of create, update and delete operations on the
    initial store, a create that succeeds appends one record, the record
    it returns; its id is the counter's value, which is strictly greater
    than the id of every product that was live at any earlier point of
    the run, deleted ones included, so no earlier id is given again. *)
Theorem created_id_exceeds_all_earlier
    (ops : list Op) (b : CreateBody.t) (res : Response) (st' : Store) :
  let st := finalStore ops initialStore in
  createProduct b st = (inr res, st') ->
  exists p,
    products st' = (products st ++ [p])%list
    /\ res = createdResponse p
    /\ id p = nextId st
    /\ nextId st' = id p + 1
    /\ forall s q, s ∈ trace ops initialStore -> q ∈ products s ->
         id q < id p /\ id q <> id p.
Proof.
  intros st. rewrite createProduct_run.
  destruct (list_find _ _) as [[index p]|]; [discriminate|].
  intros [= <- <-]. exists (createdProduct (nextId st) b).
  do 4 (split; [reflexivity|]). intros s q Hs Hq.
  pose proof (trace_ids_below_final ops initialStore
                initialStore_idsBelowNext s q Hs Hq) as Hlt.
  fold st in Hlt. cbn [id createdProduct]. lia.
Qed.

Lemma created_id_exceeds_all_earlier_witness :
  createProduct widget (finalStore [OpDelete "3"] initialStore)
  = (inr (createdResponse (createdProduct 4 widget)),
     mkStore (products (finalStore [OpDelete "3"] initialStore)
              ++ [createdProduct 4 widget])%list 5)
  /\ exists p,
       id p = nextId (finalStore [OpDelete "3"] initialStore)
       /\ forall s q, s ∈ trace [OpDelete "3"] initialStore -> q ∈ products s ->
            id q < id p /\ id q <> id p.
Proof.
  split; [reflexivity|].
  destruct (created_id_exceeds_all_earlier [OpDelete "3"] widget _ _ eq_refl)
    as (p & _ & _ & Hid & _ & Hlt).
  exists p. split; [exact Hid|exact Hlt].
Defined.

(** ** The id parameter *)

Lemma digitValue_decimal (c : ascii) :
  digitValue 10 c = if isDecimalDigit c then Some (code c - 48) else None.
Proof.
  unfold digitValue, isDecimalDigit.
  destruct ((48 <=? code c) && (code c <=? 57)); reflexivity.
Qed.

Lemma decimal_digit_plain (c : ascii) :
  isDecimalDigit c = true ->
  isWhiteSpace c = false /\ Ascii.eqb c "-" = false /\ Ascii.eqb c "+" = false
  /\ Ascii.eqb c "x" = false /\ Ascii.eqb c "X" = false.
Proof.
  destruct c as [[] [] [] [] [] [] [] []]; vm_compute; intros Hc;
    first [discriminate Hc | repeat split].
Qed.

Lemma parseDigits_started (radix : Z) (s : string) (a : Z) :
  is_Some (parseDigits radix s (Some a)).
Proof.
  revert a. induction s as [|c s IH]; intros a; simpl; [by eexists|].
  destruct (digitValue radix c); [apply IH|by eexists].
Qed.

Lemma parseDigits_None (radix : Z) (s : string) :
  parseDigits radix s None = None <->
  match s with
  | String c _ => digitValue radix c = None
  | EmptyString => True
  end.
Proof.
  destruct s as [|c s]; simpl; [done|].
  destruct (digitValue radix c) as [d|]; [|done].
  destruct (parseDigits_started radix s (radix * 0 + d)) as [n Hn].
  simpl in Hn. rewrite Hn. split; discriminate.
Qed.

Lemma parseInt_None (s : string) :
  parseInt s = None <-> hasLeadingNumber s = false.
Proof.
  unfold parseInt, hasLeadingNumber.
  destruct (stripSign (trimStart s)) as [sign s1].
  destruct (stripHexPrefix s1) as [radix s2].
  transitivity (parseDigits radix s2 None = None).
  { destruct (parseDigits radix s2 None); split; (discriminate || reflexivity). }
  rewrite parseDigits_None. destruct s2 as [|c s2]; [done|].
  rewrite bool_decide_eq_false.
  destruct (digitValue radix c) as [d|]; split; try done.
  intros Hno. exfalso. apply Hno. by eexists.
Qed.

Lemma parseDigits_decimalPrefix (s : string) (acc : option Z) :
  parseDigits 10 s acc = parseDigits 10 (decimalPrefix s) acc.
Proof.
  revert acc. induction s as [|c s IH]; intros acc; simpl; [done|].
  rewrite digitValue_decimal.
  destruct (isDecimalDigit c) eqn:Hc; simpl; [|done].
  rewrite digitValue_decimal, Hc. apply IH.
Qed.

Lemma parseInt_leading_digit (c : ascii) (s : string) :
  isDecimalDigit c = true ->
  startsWithHexMarker (String c s) = false ->
  parseInt (String c s) = parseDigits 10 (String c s) None.
Proof.
  intros Hc Hhex. destruct (decimal_digit_plain c Hc) as (Hws & Hminus & Hplus & _).
  unfold parseInt. cbn [trimStart]. rewrite Hws.
  cbn [stripSign]. rewrite Hminus, Hplus.
  assert (Hstrip : stripHexPrefix (String c s) = (10, String c s)).
  { unfold stripHexPrefix. destruct s as [|x r]; [done|].
    cbn [startsWithHexMarker] in Hhex. by rewrite Hhex. }
  rewrite Hstrip. destruct (parseDigits 10 (String c s) None) as [n|]; [|done].
  f_equal. lia.
Qed.

Lemma decimalPrefix_no_marker (s : string) :
  startsWithHexMarker (decimalPrefix s) = false.
Proof.
  destruct s as [|c [|x r]]; simpl; [done|by destruct (isDecimalDigit c)|].
  destruct (isDecimalDigit c); [|done].
  destruct (isDecimalDigit x) eqn:Hx; [|done]. cbn [startsWithHexMarker].
  destruct (decimal_digit_plain x Hx) as (_ & _ & _ & -> & ->).
  by rewrite andb_false_r.
Qed.

Lemma parseInt_decimalPrefix (s : string) :
  decimalPrefix s <> "" ->
  startsWithHexMarker s = false ->
  parseInt s = parseInt (decimalPrefix s).
Proof.
  intros Hprefix Hhex. destruct s as [|c s]; [done|].
  destruct (isDecimalDigit c) eqn:Hc; [|by simpl in Hprefix; rewrite Hc in Hprefix].
  rewrite parseInt_leading_digit by done.
  pose proof (decimalPrefix_no_marker (String c s)) as Hno.
  cbn [decimalPrefix] in *. rewrite Hc in *.
  rewrite parseInt_leading_digit by done.
  rewrite (parseDigits_decimalPrefix (String c s)). cbn [decimalPrefix]. by rewrite Hc.
Qed.

Lemma handlers_read_parseInt (a a' : string) :
  parseInt a = parseInt a' ->
  forall (b : Body.t) (st : Store),
    getProduct a st = getProduct a' st
    /\ updateProduct a b st = updateProduct a' b st
    /\ deleteProduct a st = deleteProduct a' st.
Proof.
  intros Heq b st.
  by rewrite !getProduct_run, !updateProduct_run, !deleteProduct_run, Heq.
Qed.

Lemma badRequest_iff_NaN (idParam : string) (b : Body.t) (st : Store) :
  (outcomeKind (getProduct idParam st) = Some BadRequest <-> parseInt idParam = None)
  /\ (outcomeKind (updateProduct idParam b st) = Some BadRequest
      <-> parseInt idParam = None)
  /\ (outcomeKind (deleteProduct idParam st) = Some BadRequest
      <-> parseInt idParam = None).
Proof.
  rewrite getProduct_run, updateProduct_run, deleteProduct_run.
  destruct (parseInt idParam) as [id0|]; [|done].
  destruct (list_find _ _) as [[index p]|];
    [destruct (updateConflict _ _ _)|]; by repeat split.
Qed.

Lemma append_String (c : ascii) (s r : string) :
  String c s ++ r = String c (s ++ r).
Proof. reflexivity. Qed.

Lemma parseDigits_digit (c : ascii) (s : string) (acc : option Z) :
  isDecimalDigit c = true ->
  parseDigits 10 (String c s) acc
  = parseDigits 10 s (Some (10 * default 0 acc + (code c - 48))).
Proof. intros Hc. cbn [parseDigits]. by rewrite digitValue_decimal, Hc. Qed.

Lemma parseDigits_uint_acc (d : Decimal.uint) (rest : string) (acc : positive) :
  parseDigits 10 (NilEmpty.string_of_uint d ++ rest) (Some (Z.pos acc))
  = parseDigits 10 rest (Some (Z.pos (Pos.of_uint_acc d acc))).
Proof.
  revert acc. induction d as [|d IH|d IH|d IH|d IH|d IH|d IH|d IH|d IH|d IH|d IH];
    intros acc; [reflexivity|..].
  all: cbn [NilEmpty.string_of_uint]; rewrite append_String.
  all: rewrite parseDigits_digit by reflexivity.
  all: cbn [Pos.of_uint_acc]; rewrite <- IH; f_equal; f_equal.
  all: set (k := code _); vm_compute in k; subst k.
  all: unfold default, from_option, Datatypes.id; lia.
Qed.

Lemma parseDigits_uint (d : Decimal.uint) (rest : string) :
  parseDigits 10 (NilEmpty.string_of_uint d ++ rest) (Some 0)
  = parseDigits 10 rest (Some (Z.of_N (Pos.of_uint d))).
Proof.
  induction d as [|d IH|d IH|d IH|d IH|d IH|d IH|d IH|d IH|d IH|d IH];
    [reflexivity|..].
  all: cbn [NilEmpty.string_of_uint]; rewrite append_String.
  all: rewrite parseDigits_digit by reflexivity.
  all: set (k := code _); vm_compute in k; subst k.
  all: unfold default, from_option, Datatypes.id; cbn [Pos.of_uint].
  1: exact IH.
  all: apply (parseDigits_uint_acc d rest).
Qed.

Lemma string_of_uint_digits (d : Decimal.uint) (rest : string) :
  decimalPrefix rest = "" ->
  decimalPrefix (NilEmpty.string_of_uint d ++ rest) = NilEmpty.string_of_uint d.
Proof.
  intros Hrest.
  induction d as [|d IH|d IH|d IH|d IH|d IH|d IH|d IH|d IH|d IH|d IH];
    [exact Hrest|..].
  all: cbn [NilEmpty.string_of_uint]; rewrite append_String.
  all: cbn [decimalPrefix].
  all: set (k := isDecimalDigit _); vm_compute in k; subst k; cbn iota.
  all: by rewrite IH.
Qed.

Lemma numberToString_uint (n : Z) :
  0 <= n ->
  exists d, d <> Decimal.Nil /\ numberToString n = NilEmpty.string_of_uint d
            /\ Z.of_N (Pos.of_uint d) = n.
Proof.
  intros Hn. destruct n as [|p|p]; [|..|lia].
  - exists (Decimal.D0 Decimal.Nil). by repeat split.
  - exists (Pos.to_uint p). split; [apply DecimalPos.Unsigned.to_uint_nonnil|].
    split.
    + unfold numberToString. cbn [Z.to_int NilZero.string_of_int].
      unfold NilZero.string_of_uint.
      pose proof (DecimalPos.Unsigned.to_uint_nonnil p) as Hnil.
      by destruct (Pos.to_uint p).
    + by rewrite DecimalPos.Unsigned.of_to.
Qed.

(** An id made of the decimal rendering of a non-negative integer,
    followed by anything that does not go on with a digit, is read as that
    integer, unless the whole starts with the hexadecimal marker. *)
Lemma parseInt_number_then_suffix (n : Z) (rest : string) :
  0 <= n ->
  decimalPrefix rest = "" ->
  startsWithHexMarker (numberToString n ++ rest) = false ->
  decimalPrefix (numberToString n ++ rest) = numberToString n
  /\ parseInt (numberToString n ++ rest) = Some n.
Proof.
  intros Hn Hrest Hhex.
  destruct (numberToString_uint n Hn) as (d & Hd & Hstr & <-).
  rewrite Hstr in Hhex |- *.
  split; [by apply string_of_uint_digits|].
  assert (Hhead : exists c s, NilEmpty.string_of_uint d ++ rest = String c s
                              /\ isDecimalDigit c = true).
  { destruct d; [done|..]; cbn [NilEmpty.string_of_uint]; rewrite append_String;
      by eexists _, _. }
  destruct Hhead as (c & s & Heq & Hc).
  rewrite Heq in Hhex |- *. rewrite parseInt_leading_digit by done.
  transitivity (parseDigits 10 (String c s) (Some 0));
    [by rewrite !parseDigits_digit|].
  by rewrite <- Heq, parseDigits_uint, (parseDigits_decimalPrefix rest), Hrest.
Qed.

Lemma dispatch_item_routes `{Helpers}
    (runtime : Runtime) (key idParam : string) (b : Body.t) (st : Store) :
  key ∈ validApiKeys ->
  validateProductUpdate b st = (inr tt, st) ->
  dispatch runtime (mkRequest (Some key) (GetProduct idParam)) st = getProduct idParam st
  /\ dispatch runtime (mkRequest (Some key) (UpdateProduct idParam b)) st
     = updateProduct idParam b st
  /\ dispatch runtime (mkRequest (Some key) (DeleteProduct idParam)) st
     = deleteProduct idParam st.
Proof.
  intros Hkey Hvalid. unfold dispatch. cbn [route apiKey].
  rewrite !bind_run, authenticateApiKey_run, bool_decide_eq_true_2 by done.
  by rewrite bind_run, Hvalid.
Qed.

(** C10, as the code has it: on a request to GET, PUT or DELETE
    /api/products/:id that has passed the auth gate and validation, the
    handler is what answers, and it signals BadRequest exactly when the id
    has no parseable leading number; an id that starts with decimal digits
    and not with the marker [0x] or [0X] is handled as its leading digits
    alone, that is as the number they spell; an id that starts with the
    marker is read in radix 16 from the marker on. *)
Theorem id_read_as_parseInt_reads_it `{Helpers}
    (runtime : Runtime) (key idParam : string) (b : Body.t) (st : Store) :
  key ∈ validApiKeys ->
  validateProductUpdate b st = (inr tt, st) ->
  let got := dispatch runtime (mkRequest (Some key) (GetProduct idParam)) st in
  let put := dispatch runtime (mkRequest (Some key) (UpdateProduct idParam b)) st in
  let del := dispatch runtime (mkRequest (Some key) (DeleteProduct idParam)) st in
  (got = getProduct idParam st /\ put = updateProduct idParam b st
   /\ del = deleteProduct idParam st)
  /\ (outcomeKind got = Some BadRequest <-> hasLeadingNumber idParam = false)
  /\ (outcomeKind put = Some BadRequest <-> hasLeadingNumber idParam = false)
  /\ (outcomeKind del = Some BadRequest <-> hasLeadingNumber idParam = false)
  /\ (decimalPrefix idParam <> "" -> startsWithHexMarker idParam = false ->
      readAsDecimalPrefix idParam)
  /\ (forall n rest, 0 <= n -> idParam = numberToString n ++ rest ->
      decimalPrefix rest = "" -> startsWithHexMarker idParam = false ->
      parseInt idParam = Some n)
  /\ (forall c x r, idParam = String c (String x r) ->
      startsWithHexMarker idParam = true ->
      parseInt idParam = parseDigits 16 r None).
Proof.
  intros Hkey Hvalid got put del.
  destruct (dispatch_item_routes runtime key idParam b st Hkey Hvalid)
    as (Hgot & Hput & Hdel).
  split; [done|]. subst got put del. rewrite Hgot, Hput, Hdel.
  destruct (badRequest_iff_NaN idParam b st) as (Hget & Hupd & Hrem).
  rewrite <- parseInt_None.
  split; [tauto|]. split; [tauto|]. split; [tauto|]. split.
  - intros Hprefix Hhex b' st'.
    by apply handlers_read_parseInt, parseInt_decimalPrefix.
  - split; [intros n rest Hn -> Hrest Hhex; by apply parseInt_number_then_suffix|].
    intros c x r -> Hhex. cbn [startsWithHexMarker] in Hhex.
    apply andb_true_iff in Hhex as [Hc Hx]. apply Ascii.eqb_eq in Hc as ->.
    unfold parseInt.
    change (trimStart (String "0" (String x r))) with (String "0" (String x r)).
    change (stripSign (String "0" (String x r))) with (1, String "0" (String x r)).
    assert (Hstrip : stripHexPrefix (String "0" (String x r)) = (16, r)).
    { unfold stripHexPrefix. by rewrite Hx. }
    cbn iota beta. rewrite Hstrip.
    destruct (parseDigits 16 r None) as [n|]; [|done]. f_equal. lia.
Qed.

Lemma id_read_as_parseInt_reads_it_witness :
  "your-secret-api-key-123" ∈ validApiKeys
  /\ validateProductUpdate Body.empty initialStore = (inr tt, initialStore)
  /\ decimalPrefix "1abc" <> "" /\ startsWithHexMarker "1abc" = false
  /\ getProduct "1abc" initialStore = getProduct "1" initialStore
  /\ fst (getProduct "1abc" initialStore) = inr (mkResponse 200 (productJson laptop)).
Proof.
  assert (Hkey : "your-secret-api-key-123" ∈ validApiKeys) by apply list_elem_of_here.
  assert (Hprefix : decimalPrefix "1abc" <> "") by discriminate.
  split; [exact Hkey|]. split; [reflexivity|].
  split; [exact Hprefix|]. split; [reflexivity|]. split; [|reflexivity].
  destruct (@id_read_as_parseInt_reads_it plainHelpers sampleRuntime
              "your-secret-api-key-123" "1abc" Body.empty initialStore Hkey eq_refl)
    as (_ & _ & _ & _ & Hread & _ & _).
  apply (Hread Hprefix eq_refl Body.empty initialStore).
Defined.

(** C10 as the claim words it fails in two places.  An id that starts
    with the hexadecimal marker is not read as its numeric prefix: ["0x2"]
    has the prefix ["0"], yet the handlers act on product 2, and on ["0x"]
    they signal BadRequest.  And validation comes before the PUT handler:
    with an id that has no number at all and a body with an empty name,
    the answer is ValidationFailed, not BadRequest. *)
Lemma hex_marker_not_read_as_prefix :
  decimalPrefix "0x2" = "0"
  /\ ~ readAsDecimalPrefix "0x2"
  /\ fst (getProduct "0x2" initialStore) = fst (getProduct "2" initialStore)
  /\ decimalPrefix "0x" = "0"
  /\ outcomeKind (getProduct "0x" initialStore) = Some BadRequest
  /\ outcomeKind (getProduct "0" initialStore) = Some NotFound
  /\ hasLeadingNumber "abc" = false
  /\ outcomeKind (@dispatch plainHelpers sampleRuntime
                    (withKey (UpdateProduct "abc" emptyName)) initialStore)
     = Some ValidationFailed.
Proof.
  split; [reflexivity|]. split; [|by repeat split].
  intros Hread. destruct (Hread Body.empty initialStore) as [Hget _].
  vm_compute in Hget. discriminate Hget.
Qed.

(** ** Names in a store that was only given trimmed names *)

Lemma trimStart_head (s : string) :
  match trimStart s with
  | String c _ => isWhiteSpace c = false
  | EmptyString => True
  end.
Proof.
  induction s as [|c s IH]; simpl; [done|].
  destruct (isWhiteSpace c) eqn:Hc; [exact IH|exact Hc].
Qed.

Lemma trimEnd_head (c : ascii) (s : string) :
  isWhiteSpace c = false -> exists t, trimEnd (String c s) = String c t.
Proof.
  intros Hc. simpl. destruct (trimEnd s) as [|c' t]; [|by eexists].
  rewrite Hc. by eexists.
Qed.

Lemma trimEnd_idemp (s : string) : trimEnd (trimEnd s) = trimEnd s.
Proof.
  induction s as [|c s IH]; simpl; [done|].
  destruct (trimEnd s) as [|c' t] eqn:Ht.
  - destruct (isWhiteSpace c) eqn:Hc; simpl; [done|]. by rewrite Hc.
  - change (trimEnd (String c (String c' t))) with
      (match trimEnd (String c' t) with
       | EmptyString => if isWhiteSpace c then EmptyString else String c EmptyString
       | t' => String c t'
       end).
    by rewrite IH.
Qed.

Lemma trim_idemp (s : string) : trim (trim s) = trim s.
Proof.
  unfold trim. pose proof (trimStart_head s) as Hhead.
  destruct (trimStart s) as [|c t]; [done|].
  destruct (trimEnd_head c t Hhead) as [t' Ht']. rewrite Ht'.
  cbn [trimStart]. rewrite Hhead, <- Ht'. apply trimEnd_idemp.
Qed.

Lemma namesUnique_NoDup (st : Store) :
  namesUnique st <-> NoDup (foldedName <$> products st).
Proof.
  rewrite NoDup_alt. unfold namesUnique, sameFoldedName. split.
  - intros Huniq i j x Hi Hj.
    apply list_lookup_fmap_Some in Hi as (p & -> & Hp).
    apply list_lookup_fmap_Some in Hj as (q & Hpq & Hq).
    destruct (decide (i = j)) as [|Hne]; [done|].
    by destruct (Huniq i j p q Hp Hq Hne).
  - intros Hnodup i j p q Hp Hq Hne Hsame. apply Hne.
    apply (Hnodup i j (foldedName p)); rewrite list_lookup_fmap.
    + by rewrite Hp.
    + rewrite Hq. simpl. f_equal. symmetry. exact Hsame.
Qed.

Lemma initialStore_WellKept : WellKept initialStore.
Proof.
  split.
  - apply initialStore_idsBelowNext.
  - by apply (bool_decide_unpack _).
  - intros p Hp. cbn in Hp.
    repeat (apply elem_of_cons in Hp as [->|Hp]; [reflexivity|]).
    by apply elem_of_nil in Hp.
  - by apply (bool_decide_unpack _).
Qed.

Lemma foldedName_trimmed (st : Store) (p : Product) :
  namesTrimmed st -> p ∈ products st -> foldedName p = toLowerCase (name p).
Proof. intros Htrim Hp. unfold foldedName. by rewrite (Htrim p Hp). Qed.

Lemma fmap_id_alter_applyBody (b : Body.t) (i : nat) (ps : list Product) :
  id <$> alter (applyBody b) i ps = id <$> ps.
Proof.
  rewrite (list_fmap_alter id (applyBody b) (fun x => x)).
  - by apply list_alter_id.
  - by apply Forall_forall.
Qed.

Lemma Moves_WellKept (op : Op) (st st' : Store) :
  tidyOp op -> Moves op st st' -> WellKept st -> WellKept st'.
Proof.
  intros Htidy Hmove [Hbelow Hids Htrim Hnames].
  destruct Hmove as [op st|st b Hfind|st idParam id0 index p b Hid Hfind Hdup
                    |st idParam id0 index p Hid Hfind]; [done|..].
  - (* create *)
    apply list_find_None in Hfind. rewrite Forall_forall in Hfind.
    split; cbn [products nextId].
    + eapply (Moves_idsBelowNext (OpCreate b)); [|exact Hbelow].
      apply MovesCreate. apply list_find_None. by rewrite Forall_forall.
    + rewrite fmap_app. apply NoDup_app. split; [done|]. split; [|apply NoDup_singleton].
      intros x (q & -> & Hq)%list_elem_of_fmap Hx%list_elem_of_singleton.
      specialize (Hbelow q Hq). cbn in Hx. lia.
    + intros q Hq. cbn [products] in Hq.
      apply elem_of_app in Hq as [Hq|Hq%list_elem_of_singleton]; [by apply Htrim|].
      subst q. apply trim_idemp.
    + rewrite fmap_app. apply NoDup_app. split; [done|]. split; [|apply NoDup_singleton].
      intros x (q & -> & Hq)%list_elem_of_fmap Hx%list_elem_of_singleton.
      apply (Hfind q Hq). unfold sameNameAs.
      rewrite <- (foldedName_trimmed st q Htrim Hq), Hx.
      unfold foldedName. cbn [name createdProduct]. by rewrite trim_idemp.
  - (* update *)
    pose proof Hfind as (Hlook & Hp & _)%list_find_Some.
    split; cbn [products nextId].
    + eapply (Moves_idsBelowNext (OpUpdate idParam b)); [|exact Hbelow].
      by eapply MovesUpdate.
    + by rewrite fmap_id_alter_applyBody.
    + intros q [j Hj]%list_elem_of_lookup. cbn [products] in Hj.
      destruct (decide (index = j)) as [<-|Hne].
      * rewrite list_lookup_alter_eq, Hlook in Hj. injection Hj as <-.
        cbn [name applyBody]. simpl in Htidy.
        destruct (Body.name b) as [n|]; simpl; [apply Htidy|].
        apply Htrim. by eapply list_elem_of_lookup_2.
      * rewrite list_lookup_alter_ne in Hj by done.
        apply Htrim. by eapply list_elem_of_lookup_2.
    + simpl in Htidy. destruct (Body.name b) as [n|] eqn:Hn.
      2:{ assert (Hsame : foldedName <$> alter (applyBody b) index (products st)
                          = foldedName <$> products st).
          { rewrite (list_fmap_alter foldedName (applyBody b) (fun x => x)).
            - by apply list_alter_id.
            - apply Forall_forall. intros q _. unfold foldedName, applyBody.
              cbn [name]. by rewrite Hn. }
          by rewrite Hsame. }
      destruct Htidy as [Htruthy Hn_trim].
      unfold updateConflict in Hdup. rewrite Htruthy in Hdup. simpl in Hdup.
      apply bool_decide_eq_false in Hdup.
      assert (Hnone : forall q, q ∈ products st -> ~ otherWithSameName id0 n q).
      { intros q Hq Hother. apply Hdup.
        by apply (list_find_elem_of _ _ q). }
      apply NoDup_alt. intros i j x Hi Hj.
      rewrite list_lookup_fmap in Hi, Hj.
      assert (Hclash : forall k q,
                k <> index -> products st !! k = Some q ->
                foldedName q <> foldedName (applyBody b p)).
      { intros k q Hk Hq Heq. apply (Hnone q); [by eapply list_elem_of_lookup_2|].
        split.
        - intros Hidq. apply Hk.
          apply (NoDup_lookup (id <$> products st) k index (id q)); [done|..];
            rewrite list_lookup_fmap.
          + by rewrite Hq.
          + rewrite Hlook. simpl. congruence.
        - rewrite <- (foldedName_trimmed st q Htrim) by by eapply list_elem_of_lookup_2.
          rewrite Heq. unfold foldedName, applyBody. cbn [name]. by rewrite Hn. }
      destruct (decide (i = index)) as [->|Hi_ne], (decide (j = index)) as [->|Hj_ne];
        [done|..].
      * rewrite list_lookup_alter_eq, Hlook in Hi. simpl in Hi. injection Hi as <-.
        rewrite list_lookup_alter_ne in Hj by done.
        destruct (products st !! j) as [q|] eqn:Hq; [|done]. injection Hj as Hj.
        by destruct (Hclash j q Hj_ne Hq).
      * rewrite list_lookup_alter_eq, Hlook in Hj. simpl in Hj. injection Hj as <-.
        rewrite list_lookup_alter_ne in Hi by done.
        destruct (products st !! i) as [q|] eqn:Hq; [|done]. injection Hi as Hi.
        by destruct (Hclash i q Hi_ne Hq).
      * rewrite list_lookup_alter_ne in Hi, Hj by done.
        apply (proj1 (NoDup_alt _) Hnames i j x); by rewrite list_lookup_fmap.
  - (* delete *)
    split; cbn [products nextId].
    + eapply (Moves_idsBelowNext (OpDelete idParam)); [|exact Hbelow].
      by eapply MovesDelete.
    + rewrite list_fmap_delete. eapply sublist_NoDup; [done|apply sublist_delete].
    + intros q Hq. cbn [products] in Hq. apply Htrim. by eapply list_elem_of_delete_inv.
    + rewrite list_fmap_delete. eapply sublist_NoDup; [done|apply sublist_delete].
Qed.

(** X17: as long as updates carry trimmed names, a run from the initial
    store keeps the live names trimmed and pairwise different up to
    blanks and case, and the ids pairwise different. *)
Lemma tidy_run_keeps_names_unique (ops : list Op) :
  Forall tidyOp ops ->
  WellKept (finalStore ops initialStore)
  /\ namesUnique (finalStore ops initialStore).
Proof.
  intros Htidy.
  assert (Hkept : forall st, WellKept st -> WellKept (finalStore ops st)).
  { induction Htidy as [|op ops Hop _ IH]; intros st Hst; [done|].
    cbn. apply IH. eapply Moves_WellKept; [exact Hop|apply step_Moves|exact Hst]. }
  specialize (Hkept initialStore initialStore_WellKept).
  split; [exact Hkept|]. apply namesUnique_NoDup, Hkept.
Qed.

Lemma tidy_run_keeps_names_unique_witness :
  Forall tidyOp [OpUpdate "1" (Body.mk (Some "Gadget") None None None None);
                 OpCreate gadget; OpDelete "2"]
  /\ namesUnique
       (finalStore [OpUpdate "1" (Body.mk (Some "Gadget") None None None None);
                    OpCreate gadget; OpDelete "2"] initialStore).
Proof.
  assert (Htidy : Forall tidyOp
                    [OpUpdate "1" (Body.mk (Some "Gadget") None None None None);
                     OpCreate gadget; OpDelete "2"]).
  { repeat constructor. }
  split; [exact Htidy|].
  apply (tidy_run_keeps_names_unique _ Htidy).
Defined.

(** X13: on a store of trimmed names, creating a product whose name
    matches a live one up to blanks and case, on both sides, is refused
    with Conflict and leaves the store as it was. *)
Lemma create_conflicts_on_trimmed_store (st : Store) (b : CreateBody.t) (p : Product) :
  namesTrimmed st ->
  p ∈ products st ->
  sameFoldedName (CreateBody.name b) (name p) ->
  createProduct b st
  = (inl (ConflictError (duplicateMessage (CreateBody.name b))), st).
Proof.
  intros Htrim Hp Hsame. rewrite createProduct_run.
  destruct (list_find_elem_of (sameNameAs (CreateBody.name b)) (products st) p Hp)
    as [[i q] ->]; [|done].
  unfold sameNameAs. unfold sameFoldedName in Hsame.
  by rewrite Hsame, (Htrim p Hp).
Qed.

Lemma create_conflicts_on_trimmed_store_witness :
  namesTrimmed initialStore /\ laptop ∈ products initialStore
  /\ sameFoldedName "  LAPTOP pro " (name laptop)
  /\ createProduct (CreateBody.mk "  LAPTOP pro " "d" (1 # 1) "X" true) initialStore
     = (inl (ConflictError (duplicateMessage "  LAPTOP pro ")), initialStore).
Proof.
  assert (Hin : laptop ∈ products initialStore) by apply list_elem_of_here.
  split; [apply initialStore_WellKept|]. split; [exact Hin|]. split; [reflexivity|].
  apply (create_conflicts_on_trimmed_store initialStore
           (CreateBody.mk "  LAPTOP pro " "d" (1 # 1) "X" true) laptop
           (kept_trimmed _ initialStore_WellKept) Hin eq_refl).
Defined.

(** ** Duplicate names *)

(** C1, at the failing input: after PUT /api/products/1 has stored the
    name [" Gadget "], a live product matches the name ["Gadget"] up to
    blanks and case, yet POST /api/products with that name is answered 201
    and appends a second record instead of signalling Conflict. *)
Theorem padded_name_escapes_duplicate_check `{Helpers} (runtime : Runtime) :
  let st1 := snd (serve runtime (withKey (UpdateProduct "1" paddedGadget)) initialStore) in
  (exists p, p ∈ products st1 /\ sameFoldedName (CreateBody.name gadget) (name p))
  /\ dispatch runtime (withKey (CreateProduct gadgetBody)) st1
     = (inr (createdResponse (createdProduct 4 gadget)),
        mkStore (products st1 ++ [createdProduct 4 gadget])%list 5)
  /\ status (fst (serve runtime (withKey (CreateProduct gadgetBody)) st1)) = 201.
Proof.
  split; [|split; reflexivity].
  exists (setName " Gadget " laptop). split; [|reflexivity].
  apply list_elem_of_here.
Qed.

(** C2, at the failing input: the store reached from the initial one by
    PUT /api/products/1 with the name [" Gadget"] and then PUT
    /api/products/2 with the name [" gadget"], both answered 200, holds
    two live products whose names are equal up to letter case, with or
    without trimming. *)
Theorem padded_renames_break_unique_names `{Helpers} (runtime : Runtime) :
  let st := finalStore [OpUpdate "1" leftPaddedGadget; OpUpdate "2" leftPaddedLower]
              initialStore in
  (status <$> fst (serveAll runtime
                     [ withKey (UpdateProduct "1" leftPaddedGadget);
                       withKey (UpdateProduct "2" leftPaddedLower) ] initialStore)
   = [200; 200]
   /\ snd (serveAll runtime
             [ withKey (UpdateProduct "1" leftPaddedGadget);
               withKey (UpdateProduct "2" leftPaddedLower) ] initialStore) = st)
  /\ name <$> products st = [" Gadget"; " gadget"; "Coffee Maker"]
  /\ toLowerCase " Gadget" = toLowerCase " gadget"
  /\ ~ namesUnique st.
Proof.
  split; [split; reflexivity|]. split; [reflexivity|]. split; [reflexivity|].
  intros Huniq.
  apply (Huniq 0%nat 1%nat (setName " Gadget" laptop)
           (setName " gadget" (mkProduct 2 "Wireless Mouse" "Ergonomic mouse"
                                 (2450 # 100) "Accessories" true)));
    [reflexivity|reflexivity|lia|reflexivity].
Qed.

(** ** Response envelopes *)

(** C3, at the failing input: with a valid key, GET /api/products/1 is
    answered 200 with the bare product object, which has no [success]
    key; the answers of create, update and delete carry [message] and
    [data] but no [success] key either, and neither does the answer of
    /health. *)
Theorem item_responses_lack_success_flag `{Helpers} (runtime : Runtime) :
  let got := fst (serve runtime (withKey (GetProduct "1")) initialStore) in
  let created := fst (serve runtime (withKey (CreateProduct gadgetBody)) initialStore) in
  let updated := fst (serve runtime (withKey (UpdateProduct "1" priceAndStock)) initialStore) in
  let deleted := fst (serve runtime (withKey (DeleteProduct "1")) initialStore) in
  (status got = 200 /\ body got = productJson laptop
   /\ jsonField "success" (body got) = None /\ isSuccessEnvelope (body got) = false)
  /\ (status created = 201 /\ jsonField "success" (body created) = None)
  /\ (status updated = 200 /\ jsonField "success" (body updated) = None)
  /\ (status deleted = 200 /\ jsonField "success" (body deleted) = None)
  /\ jsonField "success" (body (fst (serve runtime (mkRequest None Health) initialStore)))
     = None.
Proof. repeat split. Qed.

(** The answers that do follow the envelope: the list, search and
    statistics handlers and the endpoint catalog on success, and every
    error that goes through the error boundary. *)
Lemma listing_responses_are_success_envelopes `{Helpers}
    (query : Query.t) (st st' : Store) (res : Response) :
  listProducts query st = (inr res, st')
  \/ searchProducts query st = (inr res, st')
  \/ productStats query st = (inr res, st') ->
  isSuccessEnvelope (body res) = true /\ status res = 200 /\ st' = st.
Proof.
  intros [Hrun|[Hrun|Hrun]].
  - rewrite listProducts_run in Hrun. by injection Hrun as <- <-.
  - unfold searchProducts in Hrun.
    destruct (Query.q query) as [q|]; [|discriminate].
    destruct (truthy q && negb (String.eqb (trim q) "")); [|discriminate].
    by injection Hrun as <- <-.
  - by injection Hrun as <- <-.
Qed.

Lemma errorHandler_envelope (e : AppError) :
  isFailureEnvelope (body (errorHandler e)) = true
  /\ status (errorHandler e) = statusCode (kind e)
  /\ (errors e <> [] ->
      jsonField "errors" (body (errorHandler e)) = Some (JArr (JStr <$> errors e))).
Proof.
  repeat split. intros Herrs. unfold errorHandler.
  destruct (errors e) as [|msg errs]; [done|reflexivity].
Qed.

(** ** Scenarios *)

Example get_unknown_id_names_it :
  getProduct "999" initialStore
  = (inl (NotFoundError "Product with ID 999 not found"), initialStore).
Proof. reflexivity. Qed.

Example create_widget_gets_next_id :
  createProduct widget initialStore
  = (inr (createdResponse (mkProduct 4 "Widget" "d" (999 # 100) "X" true)),
     mkStore (products initialStore
              ++ [mkProduct 4 "Widget" "d" (999 # 100) "X" true])%list 5).
Proof. reflexivity. Qed.

Example delete_twice :
  (status <$> fst (@serveAll plainHelpers sampleRuntime
                     [ withKey (DeleteProduct "1"); withKey (DeleteProduct "1") ]
                     initialStore))
  = [200; 404].
Proof. reflexivity. Qed.

Example list_without_key :
  status (fst (@serve plainHelpers sampleRuntime
                 (mkRequest None (ListProducts Query.empty)) initialStore)) = 401.
Proof. reflexivity. Qed.

Example create_same_name_other_case :
  outcomeKind (createProduct
                 (CreateBody.mk "  LAPTOP pro " "d" (1 # 1) "X" true) initialStore)
  = Some Conflict.
Proof. reflexivity. Qed.

Example parseInt_samples :
  parseInt "1abc" = Some 1 /\ parseInt "  -42px" = Some (-42)
  /\ parseInt "0x1f" = Some 31 /\ parseInt "0x" = None
  /\ parseInt "abc" = None /\ parseInt "" = None /\ parseInt "+7" = Some 7
  /\ parseInt "12.5" = Some 12 /\ parseInt "1e3" = Some 1.
Proof. repeat split. Qed.

Example trim_samples :
  trim "  Gadget  " = "Gadget" /\ trim " a b " = "a b" /\ trim "   " = ""
  /\ toLowerCase "Laptop Pro" = "laptop pro".
Proof. repeat split. Qed.

(** * Further properties of the handlers *)

(** ** The lookup helpers *)

(** X5: [findProductById] and [findProductIndexById] succeed together,
    exactly when a live product has the id; the index returned is that of
    the product returned, which is the first with the id.  Otherwise both
    throw the same NotFound error, whose message names the id.  Neither
    touches the store. *)
Theorem lookups_agree (id0 : Z) (st : Store) :
  match findProductIndexById id0 st, findProductById id0 st with
  | (inr index, st1), (inr product, st2) =>
      st1 = st /\ st2 = st
      /\ products st !! index = Some product /\ id product = id0
      /\ forall j q, (j < index)%nat -> products st !! j = Some q -> id q <> id0
  | (inl e1, st1), (inl e2, st2) =>
      st1 = st /\ st2 = st /\ e1 = e2
      /\ e1 = NotFoundError ("Product with ID " ++ numberToString id0 ++ " not found")
      /\ forall q, q ∈ products st -> id q <> id0
  | _, _ => False
  end.
Proof.
  rewrite findProductIndexById_run, findProductById_run.
  destruct (list_find _ _) as [[index p]|] eqn:Hfind.
  - apply list_find_Some in Hfind as (Hlook & Hid & Hfirst).
    repeat split; try done. intros j q Hj Hq. by apply (Hfirst j q).
  - apply list_find_None in Hfind. rewrite Forall_forall in Hfind.
    repeat split; try done.
Qed.

(** ** Store invariants along any run *)

Lemma initialStore_sound : storeSound initialStore.
Proof.
  split; [by apply (bool_decide_unpack _)|]. split; [|done].
  intros p Hp. cbn in Hp.
  repeat (apply elem_of_cons in Hp as [->|Hp]; [by cbn|]).
  by apply elem_of_nil in Hp.
Qed.

Lemma Moves_storeSound (op : Op) (st st' : Store) :
  Moves op st st' -> storeSound st -> storeSound st'.
Proof.
  intros Hmove (Hids & Hrange & Hnext).
  destruct Hmove as [op st|st b Hfind|st idParam id0 index p b Hid Hfind Hdup
                    |st idParam id0 index p Hid Hfind]; [done|..];
    unfold storeSound; cbn [products nextId].
  - split; [|split; [|lia]].
    + rewrite fmap_app. apply NoDup_app. split; [done|]. split; [|apply NoDup_singleton].
      intros x (q & -> & Hq)%list_elem_of_fmap Hx%list_elem_of_singleton.
      specialize (Hrange q Hq). cbn in Hx. lia.
    + intros q [Hq|Hq%list_elem_of_singleton]%elem_of_app.
      * specialize (Hrange q Hq). lia.
      * subst q. cbn. lia.
  - split; [by rewrite fmap_id_alter_applyBody|]. split; [|done].
    intros q (p' & Hp' & ->)%elem_of_alter_applyBody. by apply Hrange.
  - split; [|split; [|done]].
    + rewrite list_fmap_delete. eapply sublist_NoDup; [done|apply sublist_delete].
    + intros q Hq. apply Hrange. by eapply list_elem_of_delete_inv.
Qed.

Lemma finalStore_sound (ops : list Op) (st : Store) :
  storeSound st -> storeSound (finalStore ops st).
Proof.
  revert st. induction ops as [|op ops IH]; intros st Hst; [done|].
  cbn. apply IH. eapply Moves_storeSound; [apply step_Moves|done].
Qed.

(** X1: in every store reached from the initial one by create, update
    and delete operations, whatever their arguments, no two live products
    have the same id, every live id is at least 1 and below the counter,
    and the counter is at least 4. *)
Theorem ids_stay_unique_and_below_counter (ops : list Op) :
  let st := finalStore ops initialStore in
  NoDup (id <$> products st)
  /\ (forall p, p ∈ products st -> 1 <= id p < nextId st)
  /\ 4 <= nextId st.
Proof. apply (finalStore_sound ops initialStore), initialStore_sound. Qed.

(** ** Delete *)



Lemma list_find_id_delete (id0 : Z) (index : nat) (p : Product) (ps : list Product) :
  NoDup (id <$> ps) ->
  ps !! index = Some p -> id p = id0 ->
  list_find (fun q => id q = id0) (delete index ps) = None.
Proof.
  intros Hnodup Hlook Hid. apply list_find_None, Forall_forall.
  intros q [j Hj]%list_elem_of_lookup Hq.
  assert (Hsame : forall k, ps !! k = Some q -> k = index).
  { intros k Hk. apply (NoDup_lookup (id <$> ps) k index id0); [done|..];
      rewrite list_lookup_fmap.
    - by rewrite Hk, <- Hq.
    - by rewrite Hlook, <- Hid. }
  destruct (decide (j < index)%nat) as [Hlt|Hge].
  - rewrite list_lookup_delete_lt in Hj by done. apply Hsame in Hj. lia.
  - rewrite list_lookup_delete_ge in Hj by lia. apply Hsame in Hj. lia.
Qed.

(** X19: on a store whose ids are pairwise different, once a delete has
    succeeded the id designates nothing: GET, PUT (whatever the body) and
    a second DELETE on it all signal NotFound. *)
Theorem deleted_id_is_gone
    (idParam : string) (b : Body.t) (st st' : Store) (res : Response) :
  NoDup (id <$> products st) ->
  deleteProduct idParam st = (inr res, st') ->
  outcomeKind (getProduct idParam st') = Some NotFound
  /\ outcomeKind (updateProduct idParam b st') = Some NotFound
  /\ outcomeKind (deleteProduct idParam st') = Some NotFound.
Proof.
  intros Hnodup. rewrite deleteProduct_run.
  destruct (parseInt idParam) as [id0|] eqn:Hparse; [|discriminate].
  destruct (list_find _ _) as [[index p]|] eqn:Hfind; [|discriminate].
  apply list_find_Some in Hfind as (Hlook & Hid & _).
  intros [= <- <-].
  rewrite getProduct_run, updateProduct_run, deleteProduct_run, Hparse.
  cbn [products]. by rewrite (list_find_id_delete id0 index p).
Qed.

Lemma deleted_id_is_gone_witness :
  NoDup (id <$> products initialStore)
  /\ deleteProduct "1" initialStore
     = (inr (deletedResponse (Some laptop)), step (OpDelete "1") initialStore)
  /\ outcomeKind (deleteProduct "1" (step (OpDelete "1") initialStore)) = Some NotFound.
Proof.
  assert (Hnodup : NoDup (id <$> products initialStore))
    by (by apply (bool_decide_unpack _)).
  split; [exact Hnodup|]. split; [reflexivity|].
  apply (deleted_id_is_gone "1" Body.empty initialStore _ _ Hnodup eq_refl).
Defined.

(** ** Create *)

Lemma nameTaken_find (n : string) (ps : list Product) :
  nameTaken n ps <-> is_Some (list_find (sameNameAs n) ps).
Proof.
  split.
  - intros (p & Hp & Hname). by apply (list_find_elem_of _ _ p).
  - intros [[i p] (Hlook & Hname & _)%list_find_Some].
    exists p. split; [by eapply list_elem_of_lookup_2|done].
Qed.

(** X8: a create signals Conflict exactly when some live product's stored
    name, lower-cased, equals the trimmed and lower-cased name of the
    body; in every other case it succeeds, answers 201 with the new
    record, appends that record behind the products already there and
    advances the counter by one. *)
Theorem create_conflicts_iff_name_taken (b : CreateBody.t) (st : Store) :
  (nameTaken (CreateBody.name b) (products st) ->
   createProduct b st
   = (inl (ConflictError (duplicateMessage (CreateBody.name b))), st))
  /\ (~ nameTaken (CreateBody.name b) (products st) ->
      createProduct b st
      = (inr (createdResponse (createdProduct (nextId st) b)),
         mkStore (products st ++ [createdProduct (nextId st) b])%list (nextId st + 1)))
  /\ (outcomeKind (createProduct b st) = Some Conflict
      <-> nameTaken (CreateBody.name b) (products st)).
Proof.
  rewrite nameTaken_find, createProduct_run.
  destruct (list_find _ _) as [[i p]|]; repeat split; try done.
  intros Hno. destruct Hno. by eexists.
Qed.

Lemma create_conflicts_iff_name_taken_witness :
  nameTaken "  LAPTOP pro" (products initialStore)
  /\ createProduct (CreateBody.mk "  LAPTOP pro" "d" (1 # 1) "X" true) initialStore
     = (inl (ConflictError (duplicateMessage "  LAPTOP pro")), initialStore).
Proof.
  assert (Htaken : nameTaken "  LAPTOP pro" (products initialStore)).
  { exists laptop. split; [apply list_elem_of_here|reflexivity]. }
  split; [exact Htaken|].
  apply (proj1 (create_conflicts_iff_name_taken
                  (CreateBody.mk "  LAPTOP pro" "d" (1 # 1) "X" true) initialStore)
               Htaken).
Defined.

Lemma sameNameAs_folded (n n' : string) (p : Product) :
  sameFoldedName n n' -> sameNameAs n p <-> sameNameAs n' p.
Proof. unfold sameFoldedName, sameNameAs. by intros ->. Qed.

Lemma otherWithSameName_folded (id0 : Z) (n n' : string) (p : Product) :
  sameFoldedName n n' -> otherWithSameName id0 n p <-> otherWithSameName id0 n' p.
Proof. unfold sameFoldedName, otherWithSameName. by intros ->. Qed.

Lemma is_Some_list_find_ext {A} (P Q : A -> Prop)
    `{!forall x, Decision (P x)} `{!forall x, Decision (Q x)} (l : list A) :
  (forall x, x ∈ l -> P x <-> Q x) ->
  is_Some (list_find P l) <-> is_Some (list_find Q l).
Proof.
  intros Hext. split.
  - intros [[i x] (Hlook & Hx & _)%list_find_Some].
    apply (list_find_elem_of _ _ x); [by eapply list_elem_of_lookup_2|].
    apply Hext; [by eapply list_elem_of_lookup_2|done].
  - intros [[i x] (Hlook & Hx & _)%list_find_Some].
    apply (list_find_elem_of _ _ x); [by eapply list_elem_of_lookup_2|].
    apply Hext; [by eapply list_elem_of_lookup_2|done].
Qed.

(** X12: the duplicate checks look at the name of the body only up to its
    letter case and its surrounding blanks: two creates, and two updates
    of the same id with non-empty names, whose names agree in that sense
    conflict or not together. *)
Theorem duplicate_check_folds_the_given_name
    (b b' : CreateBody.t) (idParam : string) (u u' : Body.t) (n n' : string)
    (st : Store) :
  sameFoldedName (CreateBody.name b) (CreateBody.name b') ->
  Body.name u = Some n -> Body.name u' = Some n' ->
  n <> "" -> n' <> "" -> sameFoldedName n n' ->
  (outcomeKind (createProduct b st) = Some Conflict
   <-> outcomeKind (createProduct b' st) = Some Conflict)
  /\ (outcomeKind (updateProduct idParam u st) = Some Conflict
      <-> outcomeKind (updateProduct idParam u' st) = Some Conflict).
Proof.
  intros Hcreate Hu Hu' Hn Hn' Hupdate. split.
  - rewrite !createProduct_run.
    pose proof (is_Some_list_find_ext (sameNameAs (CreateBody.name b))
                  (sameNameAs (CreateBody.name b')) (products st)
                  (fun p _ => sameNameAs_folded _ _ p Hcreate)) as Hiff.
    destruct (list_find (sameNameAs (CreateBody.name b)) _) as [[i p]|],
             (list_find (sameNameAs (CreateBody.name b')) _) as [[i' p']|];
      try done.
    + destruct (proj1 Hiff) as [? ?]; [by eexists|done].
    + destruct (proj2 Hiff) as [? ?]; [by eexists|done].
  - rewrite !updateProduct_run.
    destruct (parseInt idParam) as [id0|]; [|done].
    destruct (list_find _ _) as [[i p]|]; [|done].
    assert (Hsame : updateConflict id0 (Body.name u) (products st)
                    = updateConflict id0 (Body.name u') (products st)).
    { rewrite Hu, Hu'. unfold updateConflict.
      assert (Ht : truthy n = true) by (destruct n; [by destruct Hn|done]).
      assert (Ht' : truthy n' = true) by (destruct n'; [by destruct Hn'|done]).
      rewrite Ht, Ht'. cbn [andb]. apply bool_decide_ext.
      apply is_Some_list_find_ext. intros q _.
      by apply otherWithSameName_folded. }
    rewrite Hsame. clear Hsame. destruct (updateConflict _ _ _); by cbn.
Qed.

Lemma duplicate_check_folds_the_given_name_witness :
  sameFoldedName "Laptop Pro" "  laptop PRO "
  /\ outcomeKind (createProduct (CreateBody.mk "  laptop PRO " "d" (1 # 1) "X" true)
                    initialStore) = Some Conflict.
Proof.
  split; [reflexivity|].
  apply (proj1 (duplicate_check_folds_the_given_name
                  (CreateBody.mk "Laptop Pro" "d" (1 # 1) "X" true)
                  (CreateBody.mk "  laptop PRO " "d" (1 # 1) "X" true)
                  "2" (Body.mk (Some "a") None None None None)
                  (Body.mk (Some " A ") None None None None) "a" " A "
                  initialStore eq_refl eq_refl eq_refl
                  ltac:(discriminate) ltac:(discriminate) eq_refl)).
  reflexivity.
Defined.

Lemma parseInt_numberToString (n : Z) :
  0 <= n -> parseInt (numberToString n) = Some n.
Proof.
  intros Hn.
  assert (Happ : forall s : string, s ++ "" = s).
  { induction s as [|c s IH]; [done|]. by rewrite append_String, IH. }
  destruct (numberToString_uint n Hn) as (d & Hd & Hstr & Hval).
  pose proof (string_of_uint_digits d "" eq_refl) as Hdigits.
  rewrite Happ in Hdigits.
  pose proof (parseInt_number_then_suffix n "" Hn eq_refl) as Hparse.
  rewrite Happ in Hparse. apply Hparse.
  rewrite Hstr, <- Hdigits. apply decimalPrefix_no_marker.
Qed.

Lemma list_find_id_snoc (id0 : Z) (ps : list Product) (p : Product) :
  id p = id0 ->
  (forall q, q ∈ ps -> id q <> id0) ->
  list_find (fun q => id q = id0) (ps ++ [p]) = Some (length ps, p).
Proof.
  intros Hid Hfresh. rewrite list_find_app_r.
  - cbn. by rewrite decide_True by done.
  - apply list_find_None, Forall_forall. exact Hfresh.
Qed.

(** X10: on a store whose live ids are below the counter, the record a
    create has just added is the one GET /api/products/:id returns for
    the id, written in decimal, that the create answered with. *)
Theorem created_product_is_retrievable
    (b : CreateBody.t) (st st' : Store) (res : Response) :
  idsBelowNext st -> 0 <= nextId st ->
  createProduct b st = (inr res, st') ->
  res = createdResponse (createdProduct (nextId st) b)
  /\ getProduct (numberToString (nextId st)) st'
     = (inr (mkResponse 200 (productJson (createdProduct (nextId st) b))), st').
Proof.
  intros Hbelow Hnext. rewrite createProduct_run.
  destruct (list_find _ _) as [[i p]|]; [discriminate|].
  intros [= <- <-]. split; [done|].
  rewrite getProduct_run, parseInt_numberToString by done. cbn [products].
  rewrite (list_find_id_snoc (nextId st) (products st)
             (createdProduct (nextId st) b)); [done..|].
  intros q Hq. specialize (Hbelow q Hq). lia.
Qed.

Lemma created_product_is_retrievable_witness :
  idsBelowNext initialStore /\ 0 <= nextId initialStore
  /\ getProduct "4" (step (OpCreate widget) initialStore)
     = (inr (mkResponse 200 (productJson (createdProduct 4 widget))),
        step (OpCreate widget) initialStore).
Proof.
  split; [apply initialStore_idsBelowNext|]. split; [done|].
  apply (created_product_is_retrievable widget initialStore _ _
           initialStore_idsBelowNext ltac:(done) eq_refl).
Defined.

(** X11: on such a store, deleting the record a create has just added
    gives back the product list as it was before the create; only the
    counter keeps the advance, so the id is not handed out again. *)
Theorem delete_undoes_create_but_not_the_counter
    (b : CreateBody.t) (st st' : Store) (res : Response) :
  idsBelowNext st -> 0 <= nextId st ->
  createProduct b st = (inr res, st') ->
  deleteProduct (numberToString (nextId st)) st'
  = (inr (deletedResponse (Some (createdProduct (nextId st) b))),
     mkStore (products st) (nextId st + 1)).
Proof.
  intros Hbelow Hnext. rewrite createProduct_run.
  destruct (list_find _ _) as [[i p]|]; [discriminate|].
  intros [= <- <-].
  rewrite deleteProduct_run, parseInt_numberToString by done. cbn [products nextId].
  rewrite (list_find_id_snoc (nextId st) (products st)
             (createdProduct (nextId st) b)).
  - by rewrite delete_middle, app_nil_r.
  - done.
  - intros q Hq. specialize (Hbelow q Hq). lia.
Qed.

Lemma delete_undoes_create_but_not_the_counter_witness :
  idsBelowNext initialStore /\ 0 <= nextId initialStore
  /\ deleteProduct "4" (step (OpCreate widget) initialStore)
     = (inr (deletedResponse (Some (createdProduct 4 widget))),
        mkStore (products initialStore) 5).
Proof.
  split; [apply initialStore_idsBelowNext|]. split; [done|].
  apply (delete_undoes_create_but_not_the_counter widget initialStore _ _
           initialStore_idsBelowNext ltac:(done) eq_refl).
Defined.

(** ** Update *)

Lemma nameTakenByOther_find (id0 : Z) (n : string) (ps : list Product) :
  nameTakenByOther id0 n ps <-> is_Some (list_find (otherWithSameName id0 n) ps).
Proof.
  split.
  - intros (q & Hq & Hid & Hname). by apply (list_find_elem_of _ _ q).
  - intros [[i q] (Hlook & [Hid Hname] & _)%list_find_Some].
    exists q. split; [by eapply list_elem_of_lookup_2|done].
Qed.

Lemma updateConflict_true (id0 : Z) (n : option string) (ps : list Product) :
  updateConflict id0 n ps = true
  <-> exists n0, n = Some n0 /\ n0 <> "" /\ nameTakenByOther id0 n0 ps.
Proof.
  unfold updateConflict. destruct n as [n0|]; [|split; [done|by intros (? & ? & _)]].
  setoid_rewrite nameTakenByOther_find. split.
  - intros [Ht Hfind%bool_decide_eq_true]%andb_true_iff.
    exists n0. split; [done|]. split; [by destruct n0|done].
  - intros (n1 & [= <-] & Hn & Hfind). apply andb_true_iff. split.
    + destruct n0; [by destruct Hn|done].
    + by apply bool_decide_eq_true.
Qed.

(** X14: an update signals Conflict exactly when the id parses, a live
    product has it, and the body carries a non-empty name that a product
    with a different id already bears (up to case, and to the blanks
    around the given name); the product being updated is never a
    duplicate of itself. *)
Theorem update_conflicts_iff_name_taken_by_other
    (idParam : string) (b : Body.t) (st : Store) :
  outcomeKind (updateProduct idParam b st) = Some Conflict
  <-> exists id0 n,
        parseInt idParam = Some id0
        /\ (exists p, p ∈ products st /\ id p = id0)
        /\ Body.name b = Some n /\ n <> ""
        /\ nameTakenByOther id0 n (products st).
Proof.
  rewrite updateProduct_run. split.
  - destruct (parseInt idParam) as [id0|]; [|done].
    destruct (list_find _ _) as [[i p]|] eqn:Hfind; [|done].
    apply list_find_Some in Hfind as (Hlook & Hid & _).
    destruct (updateConflict _ _ _) eqn:Hdup; [|done]. intros _.
    apply updateConflict_true in Hdup as (n & Hn & Hne & Htaken).
    exists id0, n. split; [done|]. split; [|done].
    exists p. split; [by eapply list_elem_of_lookup_2|done].
  - intros (id0 & n & -> & (p & Hp & Hid) & Hn & Hne & Htaken).
    destruct (list_find_elem_of (fun q => id q = id0) (products st) p Hp Hid)
      as [[i p'] ->].
    assert (Hdup : updateConflict id0 (Body.name b) (products st) = true).
    { apply updateConflict_true. by exists n. }
    by rewrite Hdup.
Qed.

Lemma applyBody_idemp (b : Body.t) (p : Product) :
  applyBody b (applyBody b p) = applyBody b p.
Proof. destruct b as [[n|] [d|] [pr|] [c|] [s|]], p; reflexivity. Qed.

Lemma list_find_id_alter (id0 : Z) (b : Body.t) (i : nat) (p : Product)
    (ps : list Product) :
  list_find (fun q => id q = id0) ps = Some (i, p) ->
  list_find (fun q => id q = id0) (alter (applyBody b) i ps)
  = Some (i, applyBody b p).
Proof.
  intros (Hlook & Hid & Hfirst)%list_find_Some. apply list_find_Some.
  split; [by rewrite list_lookup_alter_eq, Hlook|]. split; [done|].
  intros j q Hq Hj. rewrite list_lookup_alter_ne in Hq by lia.
  by apply (Hfirst j q).
Qed.

Lemma nameTakenByOther_alter (id0 : Z) (n : string) (b : Body.t) (i : nat)
    (p : Product) (ps : list Product) :
  ps !! i = Some p -> id p = id0 ->
  nameTakenByOther id0 n (alter (applyBody b) i ps) <-> nameTakenByOther id0 n ps.
Proof.
  intros Hlook Hid. split.
  - intros (q & [j Hj]%list_elem_of_lookup & Hq & Hname).
    destruct (decide (i = j)) as [<-|Hne].
    + rewrite list_lookup_alter_eq, Hlook in Hj. injection Hj as <-.
      by destruct Hq.
    + rewrite list_lookup_alter_ne in Hj by done.
      exists q. split; [by eapply list_elem_of_lookup_2|done].
  - intros (q & [j Hj]%list_elem_of_lookup & Hq & Hname).
    destruct (decide (i = j)) as [<-|Hne]; [congruence|].
    exists q. split; [|done].
    eapply list_elem_of_lookup_2. by rewrite list_lookup_alter_ne.
Qed.

(** X15: an update that has succeeded can be repeated: the same request
    on the store it produced succeeds again, with the same answer, and
    leaves that store as it is. *)
Theorem update_is_idempotent
    (idParam : string) (b : Body.t) (st st' : Store) (res : Response) :
  updateProduct idParam b st = (inr res, st') ->
  updateProduct idParam b st' = (inr res, st').
Proof.
  rewrite !updateProduct_run.
  destruct (parseInt idParam) as [id0|]; [|discriminate].
  destruct (list_find _ _) as [[i p]|] eqn:Hfind; [|discriminate].
  destruct (updateConflict _ _ _) eqn:Hdup; [discriminate|].
  intros [= <- <-]. cbn [products nextId].
  rewrite (list_find_id_alter id0 b i p) by done.
  pose proof Hfind as (Hlook & Hid & _)%list_find_Some.
  assert (Hdup' : updateConflict id0 (Body.name b)
                    (alter (applyBody b) i (products st)) = false).
  { apply not_true_is_false. intros Htrue. apply not_true_iff_false in Hdup.
    apply Hdup. apply updateConflict_true.
    apply updateConflict_true in Htrue as (n & Hn & Hne & Htaken).
    exists n. split; [done|]. split; [done|].
    by apply (nameTakenByOther_alter id0 n b i p (products st) Hlook Hid). }
  rewrite Hdup', applyBody_idemp. f_equal. f_equal.
  rewrite list_alter_alter_eq. apply list_alter_ext; [|done].
  intros q _. apply applyBody_idemp.
Qed.

Lemma update_is_idempotent_witness :
  updateProduct "1" priceAndStock initialStore
  = (inr (updatedResponse (Some (applyBody priceAndStock laptop))),
     step (OpUpdate "1" priceAndStock) initialStore)
  /\ updateProduct "1" priceAndStock (step (OpUpdate "1" priceAndStock) initialStore)
     = (inr (updatedResponse (Some (applyBody priceAndStock laptop))),
        step (OpUpdate "1" priceAndStock) initialStore).
Proof.
  split; [reflexivity|].
  apply (update_is_idempotent "1" priceAndStock initialStore). reflexivity.
Defined.

(** X16: on a store that holds trimmed, pairwise different names under
    pairwise different ids, a product can be renamed to its own name,
    whatever the letter case and the surrounding blanks of the name
    given: the update succeeds. *)
Theorem rename_to_own_name_succeeds
    (idParam : string) (b : Body.t) (n : string) (p : Product) (st : Store) :
  WellKept st ->
  p ∈ products st ->
  parseInt idParam = Some (id p) ->
  Body.name b = Some n ->
  sameFoldedName n (name p) ->
  exists res st', updateProduct idParam b st = (inr res, st').
Proof.
  intros [_ Hids Htrim Hnames] Hp Hparse Hn Hsame.
  rewrite updateProduct_run, Hparse.
  destruct (list_find_elem_of (fun q => id q = id p) (products st) p Hp eq_refl)
    as [[i p'] Hfind].
  rewrite Hfind.
  destruct (updateConflict _ _ _) eqn:Hdup; [|by eexists _, _].
  apply updateConflict_true in Hdup as (n0 & Hn0 & _ & q & Hq & Hid & Hname).
  rewrite Hn in Hn0. injection Hn0 as <-.
  apply list_elem_of_lookup in Hp as [k Hk]. apply list_elem_of_lookup in Hq as [j Hj].
  assert (Hkj : k = j).
  { apply (NoDup_lookup (foldedName <$> products st) k j (foldedName p)); [done|..];
      rewrite list_lookup_fmap.
    - by rewrite Hk.
    - rewrite Hj. cbn. f_equal.
      rewrite (foldedName_trimmed st q Htrim) by by eapply list_elem_of_lookup_2.
      rewrite Hname. exact Hsame. }
  subst j. rewrite Hk in Hj. injection Hj as <-. by destruct Hid.
Qed.

Lemma rename_to_own_name_succeeds_witness :
  WellKept initialStore /\ laptop ∈ products initialStore
  /\ sameFoldedName " LAPTOP pro " (name laptop)
  /\ exists res st',
       updateProduct "1" (Body.mk (Some " LAPTOP pro ") None None None None)
         initialStore = (inr res, st').
Proof.
  assert (Hin : laptop ∈ products initialStore) by apply list_elem_of_here.
  split; [apply initialStore_WellKept|]. split; [exact Hin|]. split; [reflexivity|].
  apply (rename_to_own_name_succeeds "1"
           (Body.mk (Some " LAPTOP pro ") None None None None) " LAPTOP pro "
           laptop initialStore initialStore_WellKept Hin eq_refl eq_refl eq_refl).
Defined.

(** ** The reading handlers *)

Lemma searchProducts_run `{Helpers} (query : Query.t) (st : Store) :
  let results := searchResults query (products st) in
  let pg := parsePagination query in
  searchProducts query st =
  match Query.q query with
  | Some q =>
      if decide (trim q = "") then (inl searchRequiredError, st)
      else
        (inr (mkResponse 200
                (JObj [ ("success", JBool true);
                        ("query", JStr q);
                        ("filters",
                         JObj [ ("category", orNull (Query.category query));
                                ("inStock", orNull (Query.inStock query)) ]);
                        ("pagination",
                         createPaginationMeta (Z.of_nat (length results))
                           (page pg) (limit pg));
                        ("resultsCount", JNum (inject_Z (Z.of_nat (length results))));
                        ("data",
                         JArr (productJson <$>
                                 paginateProducts results (skip pg) (limit pg))) ])),
         st)
  | None => (inl searchRequiredError, st)
  end.
Proof.
  unfold searchProducts, searchResults.
  destruct (Query.q query) as [q|]; [|reflexivity]. cbn [default from_option].
  destruct (decide (trim q = "")) as [Hblank|Hblank].
  - rewrite Hblank. cbn. by rewrite andb_false_r.
  - assert (Hq : truthy q = true) by (destruct q; [by destruct Hblank|done]).
    assert (Hneq : String.eqb (trim q) "" = false) by by apply String.eqb_neq.
    rewrite Hq, Hneq. cbn [andb negb]. unfold bind, getProducts, ret.
    by destruct (isTruthy (Query.category query)), (Query.inStock query).
Qed.



Lemma getProduct_store (idParam : string) (st : Store) :
  snd (getProduct idParam st) = st.
Proof.
  rewrite getProduct_run. destruct (parseInt idParam) as [id0|]; [|done].
  by destruct (list_find _ _) as [[i p]|].
Qed.

Lemma listProducts_store `{Helpers} (query : Query.t) (st : Store) :
  snd (listProducts query st) = st.
Proof. by rewrite listProducts_run. Qed.

Lemma searchProducts_store `{Helpers} (query : Query.t) (st : Store) :
  snd (searchProducts query st) = st.
Proof.
  rewrite searchProducts_run.
  destruct (Query.q query) as [q|]; [|done]. by destruct (decide _).
Qed.

Lemma productStats_store `{Helpers} (query : Query.t) (st : Store) :
  snd (productStats query st) = st.
Proof. reflexivity. Qed.

(** X6: the four reading handlers never write: whatever the parameters
    and whatever the outcome, GET by id, the listing, the search and the
    statistics leave the product list and the counter as they found
    them. *)
Theorem reading_handlers_never_write `{Helpers}
    (idParam : string) (query : Query.t) (st : Store) :
  snd (getProduct idParam st) = st
  /\ snd (listProducts query st) = st
  /\ snd (searchProducts query st) = st
  /\ snd (productStats query st) = st.
Proof.
  split; [apply getProduct_store|]. split; [apply listProducts_store|].
  split; [apply searchProducts_store|apply productStats_store].
Qed.

(** ** Requests and operations *)

Lemma validateProductCreation_run (b : Body.t) (st : Store) :
  (exists e, validateProductCreation b st = (inl e, st))
  \/ (exists valid, validateProductCreation b st = (inr valid, st)).
Proof.
  pose proof (validateProductCreation_store b st) as Hst.
  destruct (validateProductCreation b st) as [[e|valid] st1]; cbn in Hst; subst st1;
    [left|right]; by eexists.
Qed.

Lemma validateProductUpdate_run (b : Body.t) (st : Store) :
  (exists e, validateProductUpdate b st = (inl e, st))
  \/ validateProductUpdate b st = (inr tt, st).
Proof.
  pose proof (validateProductUpdate_store b st) as Hst.
  destruct (validateProductUpdate b st) as [[e|[]] st1]; cbn in Hst; subst st1;
    [left; by eexists|by right].
Qed.

Lemma serve_store `{Helpers} (runtime : Runtime) (req : Request) (st : Store) :
  snd (serve runtime req st) = snd (dispatch runtime req st).
Proof. unfold serve. by destruct (dispatch runtime req st) as [[e|res] st1]. Qed.

(** X3: a request changes the store only as one create, update or
    delete operation does: whatever is served, the store afterwards is
    the store before, or it is the result of the operation of a POST, PUT
    or DELETE request on products that carried a valid key and, for a
    create, a body that passed validation. *)
Theorem request_acts_as_one_operation_or_none `{Helpers}
    (runtime : Runtime) (req : Request) (st : Store) :
  snd (serve runtime req st) = st
  \/ exists op,
       changesStoreAs (route req) op st
       /\ (exists k, apiKey req = Some k /\ k ∈ validApiKeys)
       /\ snd (serve runtime req st) = step op st.
Proof.
  rewrite serve_store. unfold dispatch.
  destruct (route req) as [| | | |query|query|query|idParam|b|idParam b|idParam|]
    eqn:Hroute; try (by left);
    rewrite bind_run, authenticateApiKey_run;
    (destruct (apiKey req) as [k|] eqn:Hkey; [|by left]);
    (destruct (bool_decide (k ∈ validApiKeys)) eqn:Hk; [|by left]);
    apply bool_decide_eq_true in Hk.
  - left. apply listProducts_store.
  - left. apply searchProducts_store.
  - left. apply productStats_store.
  - left. apply getProduct_store.
  - rewrite bind_run.
    destruct (validateProductCreation_run b st) as [[e He]|[valid Hvalid]].
    + left. by rewrite He.
    + right. exists (OpCreate valid).
      split; [exact Hvalid|]. split; [by exists k|]. by rewrite Hvalid.
  - rewrite bind_run.
    destruct (validateProductUpdate_run b st) as [[e He]|Hvalid].
    + left. by rewrite He.
    + right. exists (OpUpdate idParam b).
      split; [done|]. split; [by exists k|]. by rewrite Hvalid.
  - right. exists (OpDelete idParam). split; [done|]. split; [by exists k|done].
Qed.

Lemma serve_storeSound `{Helpers} (runtime : Runtime) (req : Request) (st : Store) :
  storeSound st -> storeSound (snd (serve runtime req st)).
Proof.
  intros Hst. rewrite serve_store. unfold dispatch.
  destruct (route req) as [| | | |query|query|query|idParam|b|idParam b|idParam|];
    try done;
    rewrite bind_run, authenticateApiKey_run;
    (destruct (apiKey req) as [k|]; [|done]);
    (destruct (bool_decide (k ∈ validApiKeys)); [|done]); cbn beta iota.
  - by rewrite listProducts_store.
  - by rewrite searchProducts_store.
  - by rewrite productStats_store.
  - by rewrite getProduct_store.
  - rewrite bind_run.
    destruct (validateProductCreation_run b st) as [[e ->]|[valid ->]]; [done|].
    apply (Moves_storeSound (OpCreate valid) st);
      [apply (step_Moves (OpCreate valid))|done].
  - rewrite bind_run.
    destruct (validateProductUpdate_run b st) as [[e He]|He]; rewrite He; [done|].
    apply (Moves_storeSound (OpUpdate idParam b) st);
      [apply (step_Moves (OpUpdate idParam b))|done].
  - apply (Moves_storeSound (OpDelete idParam) st);
      [apply (step_Moves (OpDelete idParam))|done].
Qed.

(** X2: whatever requests the server is sent, with or without a key,
    well-formed or not, the store it ends with holds pairwise different
    ids, each at least 1 and below the counter, and a counter of at
    least 4. *)
Theorem server_keeps_ids_unique `{Helpers} (runtime : Runtime) (reqs : list Request) :
  let st := snd (serveAll runtime reqs initialStore) in
  NoDup (id <$> products st)
  /\ (forall p, p ∈ products st -> 1 <= id p < nextId st)
  /\ 4 <= nextId st.
Proof.
  assert (Hall : forall st, storeSound st ->
                   storeSound (snd (serveAll runtime reqs st))).
  { induction reqs as [|req reqs IH]; intros st Hst; [done|].
    cbn [serveAll]. pose proof (serve_storeSound runtime req st Hst) as Hnext.
    destruct (serve runtime req st) as [res st1]. cbn [snd] in Hnext.
    specialize (IH st1 Hnext).
    by destruct (serveAll runtime reqs st1) as [rest st2]. }
  apply (Hall initialStore initialStore_sound).
Qed.

(** ** What create stores *)

Lemma trimEnd_no_blank_end (s : string) : endsBlank (trimEnd s) = false.
Proof.
  induction s as [|c s IH]; [done|]. cbn [trimEnd].
  destruct (trimEnd s) as [|c' t].
  - destruct (isWhiteSpace c) eqn:Hc; [done|]. by cbn.
  - exact IH.
Qed.

Lemma trim_no_blank_ends (s : string) :
  startsBlank (trim s) = false /\ endsBlank (trim s) = false.
Proof.
  split; [|apply trimEnd_no_blank_end].
  unfold trim. pose proof (trimStart_head s) as Hhead.
  destruct (trimStart s) as [|c t]; [done|].
  destruct (trimEnd_head c t Hhead) as [t' ->]. exact Hhead.
Qed.

(** X9: the record a create adds has the id the counter held, and its
    name, description and category neither start nor end with a blank;
    its price and stock flag are those of the body. *)
Theorem create_stores_trimmed_strings
    (b : CreateBody.t) (st st' : Store) (res : Response) :
  createProduct b st = (inr res, st') ->
  exists p,
    last (products st') = Some p
    /\ id p = nextId st
    /\ startsBlank (name p) = false /\ endsBlank (name p) = false
    /\ startsBlank (description p) = false /\ endsBlank (description p) = false
    /\ startsBlank (category p) = false /\ endsBlank (category p) = false
    /\ price p = CreateBody.price b /\ inStock p = CreateBody.inStock b.
Proof.
  rewrite createProduct_run.
  destruct (list_find _ _) as [[i q]|]; [discriminate|].
  intros [= <- <-]. exists (createdProduct (nextId st) b). cbn [products].
  split; [apply last_snoc|]. split; [done|].
  pose proof (trim_no_blank_ends (CreateBody.name b)) as [? ?].
  pose proof (trim_no_blank_ends (CreateBody.description b)) as [? ?].
  pose proof (trim_no_blank_ends (CreateBody.category b)) as [? ?].
  by repeat split.
Qed.

Lemma create_stores_trimmed_strings_witness :
  createProduct (CreateBody.mk "  Desk Lamp " " warm light  " (1999 # 100) " Home " false)
    initialStore
  = (inr (createdResponse
            (mkProduct 4 "Desk Lamp" "warm light" (1999 # 100) "Home" false)),
     mkStore (products initialStore
              ++ [mkProduct 4 "Desk Lamp" "warm light" (1999 # 100) "Home" false])%list 5)
  /\ exists p,
       last (products initialStore
             ++ [mkProduct 4 "Desk Lamp" "warm light" (1999 # 100) "Home" false])%list
       = Some p
       /\ startsBlank (name p) = false /\ endsBlank (name p) = false.
Proof.
  split; [reflexivity|].
  destruct (create_stores_trimmed_strings
              (CreateBody.mk "  Desk Lamp " " warm light  " (1999 # 100) " Home " false)
              initialStore _ _ eq_refl) as (p & Hlast & _ & Hs & He & _).
  by exists p.
Defined.
